(** * Ads.bot: a shallow embedding of [bot.py] and its verified properties

    The bot is a Telegram front end for the AdsGram ad network.  Its whole
    logic lives in one Python module: a start-up validation of two
    environment values, a per-user cooldown kept in a module-level dict, one
    best-effort HTTP fetch, and the handlers that sequence them.

    Modelling choices, all taken from the source:
    - Python values that come out of [resp.json()] are the inductive [json];
      a JSON object is a finite map from strings to values.
    - [_last_ad_at] is a finite map from user ids to timestamps.  Timestamps
      ([time.time()] floats) are exact rationals: every finite float is a
      rational and the subtraction of two nearby clock readings is exact.
    - Effects are explicit.  A computation reads the world around it (the
      process environment, the clock reading, the answer of the HTTP
      server), threads the module's globals, may raise, and emits the list
      of calls it makes to the outside world, in order.
    - Exceptions are the [Exception] subclasses the module can meet; all of
      them are caught by [except Exception].
    - An [Update] carries its user and its callback query, which only
      [button_cb] reads, the handler registered for callback queries;
      [update.message] and [query.message] may be [None] (an edited command
      has no [message]), and calling a method on [None] raises
      [AttributeError].
    - Calls into the Telegram API ([reply_text], [reply_photo], [answer])
      are recorded and return what Telegram answers: normally, or with an
      exception, which nothing in the module catches.
    - A Python [str] is the byte string of its UTF-8 encoding; slicing and
      [isdigit] work on its code points.  Which code points are digits is a
      table of the interpreter's Unicode database; it is part of the
      world. *)

From Stdlib Require Import QArith.
From Stdlib Require Import Floats.SpecFloat.
From stdpp Require Import gmap strings list fin_maps pretty.

Local Open Scope Z_scope.

(** ** Python values *)

#[warnings="-register-all"]
Inductive json : Type :=
| JNull
| JBool (b : bool)
| JInt (z : Z)
| JFloat (f : spec_float)
| JStr (s : string)
| JArr (l : list json)
| JObj (d : gmap string json).

(** [bool(v)]: Python truthiness of a parsed JSON value. *)
Definition truthy (v : json) : bool :=
  match v with
  | JNull => false
  | JBool b => b
  | JInt z => negb (z =? 0)
  | JFloat (S754_zero _) => false
  | JFloat _ => true
  | JStr s => negb (String.eqb s "")
  | JArr l => match l with [] => false | _ => true end
  | JObj d => match map_to_list d with [] => false | _ => true end
  end.

(** [d.get(k)] and [d.get(k, dflt)]; Python's [None] is [JNull]. *)
Definition dict_get_default (d : gmap string json) (k : string) (dflt : json) : json :=
  default dflt (d !! k).

Definition dict_get (d : gmap string json) (k : string) : json :=
  dict_get_default d k JNull.

(** [a or b] *)
Definition py_or (a b : json) : json := if truthy a then a else b.

(** ** Strings as code points *)

(** A byte [10xxxxxx] continues the code point begun before it. *)
Definition is_continuation (c : Ascii.ascii) : bool :=
  let n := Ascii.N_of_ascii c in ((128 <=? n) && (n <? 192))%N.


(** [s[:n]]: the first [n] code points. *)
Fixpoint utf8_take (n : nat) (s : string) : string :=
  match s with
  | EmptyString => EmptyString
  | String c s' =>
      if is_continuation c then String c (utf8_take n s')
      else match n with
           | O => EmptyString
           | S n' => String c (utf8_take n' s')
           end
  end.

(** The payload bits of the byte that begins a code point. *)
Definition lead_payload (c : Ascii.ascii) : N :=
  let n := Ascii.N_of_ascii c in
  (if n <? 128 then n
   else if n <? 224 then n - 192
   else if n <? 240 then n - 224
   else n - 240)%N.

(** The code points of a string; [cur] is the one being read. *)
Fixpoint utf8_decode_from (cur : option N) (s : string) : list N :=
  match s with
  | EmptyString => match cur with Some cp => [cp] | None => [] end
  | String c s' =>
      if is_continuation c then
        utf8_decode_from
          (Some (default 0 cur * 64 + (Ascii.N_of_ascii c - 128))%N) s'
      else
        match cur with
        | Some cp => cp :: utf8_decode_from (Some (lead_payload c)) s'
        | None => utf8_decode_from (Some (lead_payload c)) s'
        end
  end.

Definition utf8_decode (s : string) : list N := utf8_decode_from None s.

(** [s.isdigit()]: at least one character, and every character a digit
    according to the table [digit] of the Unicode database. *)
Definition isdigit (digit : N -> bool) (s : string) : bool :=
  match utf8_decode s with
  | [] => false
  | cps => forallb digit cps
  end.

(** ** Exceptions and results *)

Inductive Exn : Type :=
| ConnectionError (msg : string)
| Timeout (msg : string)
| JSONDecodeError (msg : string)
| KeyError (key : string)
| TypeError (msg : string)
| RuntimeError (msg : string)
| AttributeError (attribute : string)   (* 'NoneType' object has no attribute ... *)
| TelegramError (msg : string).

Inductive Res (A : Type) : Type :=
| Ok (a : A)
| Raise (e : Exn).
Arguments Ok {A} a.
Arguments Raise {A} e.

(** ** The outside world *)

(** A [requests] response: the status, the body text, and what
    [resp.json()] does on it (a value, or a decoding error). *)
Record Response : Type := {
  status_code : Z;
  text : string;
  resp_json : Res json
}.

Record Message : Type := { chat_id : Z; message_id : Z }.

Record CallbackQuery : Type := {
  query_id : string;
  data : option string;
  query_message : option Message
}.

Record User : Type := { id : Z }.

Inductive Context : Type := DEFAULT_TYPE.

Record Update : Type := {
  effective_user : User;
  message : option Message;
  callback_query : CallbackQuery
}.

Record InlineKeyboardButton : Type := {
  btn_text : json;
  btn_url : option json;
  btn_callback_data : option string
}.

Definition InlineKeyboardMarkup : Type := list (list InlineKeyboardButton).

Inductive ParseMode : Type := HTML.

Inductive LogLevel : Type := INFO | WARNING | EXCEPTION.

Inductive LogArg : Type :=
| ArgInt (z : Z)
| ArgStr (s : string)
| ArgStrOf200 (v : json)      (* str(v)[:200] *)
| ArgExn (e : Exn).

Inductive HandlerName : Type := h_start | h_help_cmd | h_ads_cmd | h_button_cb.

Inductive Handler : Type :=
| CommandHandler (command : string) (callback : HandlerName)
| CallbackQueryHandler (callback : HandlerName).

(** Every call that leaves the module, with its arguments. *)
Inductive Effect : Type :=
| time_time_call
| requests_get_call (url : string) (timeout : Z)
| log_call (level : LogLevel) (fmt : string) (args : list LogArg)
| answer_call (q : CallbackQuery)
| reply_text_call (target : Message) (body : json)
    (parse_mode : option ParseMode)
    (reply_markup : option InlineKeyboardMarkup)
    (protect_content : option bool)
| reply_photo_call (target : Message) (photo caption : json)
    (parse_mode : option ParseMode)
    (reply_markup : option InlineKeyboardMarkup)
    (protect_content : option bool)
| basicConfig_call (level : LogLevel) (fmt : string)
| build_call (token : option string)
| add_handler_call (h : Handler)
| run_polling_call.

(** What the code meets in its surroundings during one run: the process
    environment, the clock, the HTTP server's behaviour, the Unicode table
    of digits, and what Telegram answers to a call. *)
Record World : Type := {
  environ : gmap string string;
  time_time : Q;
  requests_get : string -> Z -> Res Response;
  unicode_digit : N -> bool;
  telegram : Effect -> Res unit
}.

(** The module's globals that are assigned at run time. *)
Record Globals : Type := {
  BOT_TOKEN : option string;
  BLOCK_ID : option string;
  _last_ad_at : gmap Z Q
}.

(** ** The computation monad *)

Definition Py (A : Type) : Type :=
  World -> Globals -> Res A * Globals * list Effect.

Definition py_ret {A} (a : A) : Py A := fun _ g => (Ok a, g, []).

Definition py_bind {A B} (f : A -> Py B) (m : Py A) : Py B :=
  fun w g =>
    match m w g with
    | (Ok a, g1, t1) => let '(r, g2, t2) := f a w g1 in (r, g2, t1 ++ t2)
    | (Raise e, g1, t1) => (Raise e, g1, t1)
    end.

#[global] Instance Py_ret : MRet Py := @py_ret.
#[global] Instance Py_bind : MBind Py := @py_bind.

Definition raise {A} (e : Exn) : Py A := fun _ g => (Raise e, g, []).

Definition emit (e : Effect) : Py unit := fun _ g => (Ok tt, g, [e]).

(** [try: m  except Exception as e: h e] *)
Definition try_except {A} (m : Py A) (h : Exn -> Py A) : Py A :=
  fun w g =>
    match m w g with
    | (Raise e, g1, t1) => let '(r, g2, t2) := h e w g1 in (r, g2, t1 ++ t2)
    | finished => finished
    end.

Definition lift_res {A} (r : Res A) : Py A :=
  match r with Ok a => mret a | Raise e => raise e end.

(** [os.getenv(name)] *)
Definition getenv (name : string) : Py (option string) :=
  fun w g => (Ok (environ w !! name), g, []).

Definition get_BOT_TOKEN : Py (option string) := fun _ g => (Ok (BOT_TOKEN g), g, []).
Definition get_BLOCK_ID : Py (option string) := fun _ g => (Ok (BLOCK_ID g), g, []).

Definition set_BOT_TOKEN (v : option string) : Py unit :=
  fun _ g => (Ok tt, {| BOT_TOKEN := v; BLOCK_ID := BLOCK_ID g;
                        _last_ad_at := _last_ad_at g |}, []).

Definition set_BLOCK_ID (v : option string) : Py unit :=
  fun _ g => (Ok tt, {| BOT_TOKEN := BOT_TOKEN g; BLOCK_ID := v;
                        _last_ad_at := _last_ad_at g |}, []).

Definition set_last_ad_at (m : gmap Z Q) : Py unit :=
  fun _ g => (Ok tt, {| BOT_TOKEN := BOT_TOKEN g; BLOCK_ID := BLOCK_ID g;
                        _last_ad_at := m |}, []).

(** [_last_ad_at.get(user_id, dflt)] and [_last_ad_at[user_id] = v] *)
Definition last_ad_at_get (user_id : Z) (dflt : Q) : Py Q :=
  fun _ g => (Ok (default dflt (_last_ad_at g !! user_id)), g, []).

Definition last_ad_at_setitem (user_id : Z) (v : Q) : Py unit :=
  fun w g => set_last_ad_at (<[user_id := v]> (_last_ad_at g)) w g.

Definition call_time_time : Py Q :=
  fun w g => (Ok (time_time w), g, [time_time_call]).

Definition call_requests_get (url : string) (timeout : Z) : Py Response :=
  fun w g => (requests_get w url timeout, g, [requests_get_call url timeout]).

Definition log (level : LogLevel) (fmt : string) (args : list LogArg) : Py unit :=
  emit (log_call level fmt args).

(** A call into the Telegram API: made, and answered by Telegram. *)
Definition call_telegram (e : Effect) : Py unit :=
  fun w g => (telegram w e, g, [e]).

(** [s.isdigit()] with the interpreter's table. *)
Definition call_isdigit (s : string) : Py bool :=
  fun w g => (Ok (isdigit (unicode_digit w) s), g, []).

(** [d[k]] *)
Definition getitem (d : gmap string json) (k : string) : Py json :=
  match d !! k with
  | Some v => mret v
  | None => raise (KeyError k)
  end.

(** The same two operations on the [Optional[dict]] that [_fetch_ad]
    returns.  They are only reached after [if not ad] has ruled [None] out;
    on [None] Python would raise, subscripting does so here and [.get] is
    given the default. *)
Definition subscript (ad : option (gmap string json)) (k : string) : Py json :=
  match ad with
  | Some d => getitem d k
  | None => raise (TypeError "'NoneType' object is not subscriptable")
  end.

Definition opt_dict_get_default (ad : option (gmap string json)) (k : string)
    (dflt : json) : json :=
  match ad with Some d => dict_get_default d k dflt | None => dflt end.

Definition opt_dict_get (ad : option (gmap string json)) (k : string) : json :=
  opt_dict_get_default ad k JNull.

(** How an f-string prints an [Optional[str]]. *)
Definition format_opt (o : option string) : string :=
  match o with Some s => s | None => "None" end.

(** [bool(o)] for an [Optional[str]] and for an [Optional[dict]]. *)
Definition truthy_opt_str (o : option string) : bool :=
  match o with Some s => negb (String.eqb s "") | None => false end.

Definition truthy_opt_dict (o : option (gmap string json)) : bool :=
  match o with Some d => truthy (JObj d) | None => false end.

(** Projections of a finished run. *)
Definition result {A} (x : Res A * Globals * list Effect) : Res A := x.1.1.
Definition globals {A} (x : Res A * Globals * list Effect) : Globals := x.1.2.
Definition effects {A} (x : Res A * Globals * list Effect) : list Effect := x.2.

(** ** The module, function by function *)

Definition AD_API : string := "https://api.adsgram.ai/advbot".

Definition COOLDOWN_SECONDS : Q := 8.

Definition _cooldown_ok (user_id : Z) : Py bool :=
  now ← call_time_time;
  last ← last_ad_at_get user_id 0%Q;
  if Qle_bool COOLDOWN_SECONDS (now - last) then
    last_ad_at_setitem user_id now;;
    mret true
  else
    mret false.

Definition _fetch_ad (tgid : Z) : Py (option (gmap string json)) :=
  block_id ← get_BLOCK_ID;
  let url := AD_API +:+ "?tgid=" +:+ pretty tgid +:+ "&blockid=" +:+ format_opt block_id in
  try_except
    (resp ← call_requests_get url 10;
     if negb (status_code resp =? 200) then
       log WARNING "AdsGram non-200: %s %s"
         [ArgInt (status_code resp); ArgStr (utf8_take 200 (text resp))];;
       mret None
     else
       data ← lift_res (resp_json resp);
       match data with
       | JObj d =>
           if negb (truthy (dict_get d "button_name")) then
             log INFO "No ad / malformed ad: %s" [ArgStrOf200 data];;
             mret None
           else
             mret (Some d)
       | _ =>
           log INFO "No ad / malformed ad: %s" [ArgStrOf200 data];;
           mret None
       end)
    (fun e =>
       log EXCEPTION "Failed to fetch ad: %s" [ArgExn e];;
       mret None).

(** [target.reply_text(...)] and [target.reply_photo(...)], where [target]
    may be [None]: the attribute lookup then raises before any call. *)
Definition reply_text (target : option Message) (body : json)
    (parse_mode : option ParseMode) (reply_markup : option InlineKeyboardMarkup)
    (protect_content : option bool) : Py unit :=
  match target with
  | Some m =>
      call_telegram (reply_text_call m body parse_mode reply_markup protect_content)
  | None => raise (AttributeError "reply_text")
  end.

Definition reply_photo (target : option Message) (photo caption : json)
    (parse_mode : option ParseMode) (reply_markup : option InlineKeyboardMarkup)
    (protect_content : option bool) : Py unit :=
  match target with
  | Some m =>
      call_telegram
        (reply_photo_call m photo caption parse_mode reply_markup protect_content)
  | None => raise (AttributeError "reply_photo")
  end.

Definition url_button (label target : json) : InlineKeyboardButton :=
  {| btn_text := label; btn_url := Some target; btn_callback_data := None |}.

Definition callback_button (label : json) (token : string) : InlineKeyboardButton :=
  {| btn_text := label; btn_url := None; btn_callback_data := Some token |}.

Definition start (update : Update) (context : Context) : Py unit :=
  let keyboard := [[callback_button (JStr "📣 Show Ads") "show_ads"]] in
  reply_text (message update)
    (JStr "👋 Welcome! Tap the button to view a sponsored ad and support the bot.")
    None (Some keyboard) None.

Definition help_cmd (update : Update) (context : Context) : Py unit :=
  reply_text (message update)
    (JStr "Commands:
/ads — show a sponsored ad
/start — get the welcome message with a button")
    None None None.

Definition wait_notice : json :=
  JStr "⏳ Please wait a few seconds before requesting another ad.".

Definition no_ad_notice : json :=
  JStr "😕 No ad available right now. Please try again shortly.".

Definition show_ads_common (update : Update) (context : Context)
    (reply_target : option Message) : Py unit :=
  let user_id := id (effective_user update) in
  ok ← _cooldown_ok user_id;
  if negb ok then
    reply_text reply_target wait_notice None None None
  else
    ad ← _fetch_ad user_id;
    if negb (truthy_opt_dict ad) then
      reply_text reply_target no_ad_notice None None None
    else
      label ← subscript ad "button_name";
      let buttons :=
        [[url_button label (opt_dict_get_default ad "click_url" (JStr "https://t.me"))]] in
      buttons ←
        (if truthy (opt_dict_get ad "button_reward_name")
            && truthy (opt_dict_get ad "reward_url")
         then
           reward_label ← subscript ad "button_reward_name";
           reward_target ← subscript ad "reward_url";
           mret (buttons ++ [[url_button reward_label reward_target]])
         else mret buttons);
      let markup : InlineKeyboardMarkup := buttons in
      let text_html := py_or (opt_dict_get ad "text_html") (JStr "Sponsored") in
      let image_url := opt_dict_get ad "image_url" in
      if truthy image_url then
        reply_photo reply_target image_url text_html (Some HTML) (Some markup) (Some true)
      else
        reply_text reply_target text_html (Some HTML) (Some markup) (Some true).

Definition ads_cmd (update : Update) (context : Context) : Py unit :=
  show_ads_common update context (message update).

Definition button_cb (update : Update) (context : Context) : Py unit :=
  let query := callback_query update in
  call_telegram (answer_call query);;
  if bool_decide (data query = Some "show_ads") then
    show_ads_common update context (query_message query)
  else
    mret tt.

Definition main : Py unit :=
  token ← get_BOT_TOKEN;
  emit (build_call token);;
  emit (add_handler_call (CommandHandler "start" h_start));;
  emit (add_handler_call (CommandHandler "help" h_help_cmd));;
  emit (add_handler_call (CommandHandler "ads" h_ads_cmd));;
  emit (add_handler_call (CallbackQueryHandler h_button_cb));;
  log INFO "Bot starting…" [];;
  emit run_polling_call.

(** The statements at module level, in order, ending with the
    [if __name__ == "__main__": main()] of a script run. *)
Definition module_body : Py unit :=
  token ← getenv "7016999277:AAEa5b_-_AxuhXp1U6JeP_eO822ORHHc0L4";
  set_BOT_TOKEN token;;
  block_id ← getenv "int-14249";
  set_BLOCK_ID block_id;;
  (if negb (truthy_opt_str token) then
     raise (RuntimeError "Missing BOT_TOKEN env var")
   else mret tt);;
  digits ← match block_id with
           | Some s => call_isdigit s
           | None => mret false     (* not evaluated: [not BLOCK_ID] decides *)
           end;
  (if negb (truthy_opt_str block_id) || negb digits then
     raise (RuntimeError "BLOCK_ID must be numeric and set as env var")
   else mret tt);;
  emit (basicConfig_call INFO "%(asctime)s | %(levelname)s | %(name)s | %(message)s");;
  set_last_ad_at ∅;;
  main.

(** The globals before the first assignment of the module has run. *)
Definition unloaded : Globals :=
  {| BOT_TOKEN := None; BLOCK_ID := None; _last_ad_at := ∅ |}.

(** Running one computation once per world, in order, on the globals the
    previous run left behind: consecutive invocations of a handler. *)
Fixpoint run_all {A} (m : Py A) (ws : list World) (g : Globals)
    : list (Res A) * Globals :=
  match ws with
  | [] => ([], g)
  | w :: ws' =>
      let r := m w g in
      let '(rs, g') := run_all m ws' (globals r) in
      (result r :: rs, g')
  end.

(** ** Vocabulary of the statements *)

(** The last timestamp the check compares against. *)
Definition last_seen (user_id : Z) (g : Globals) : Q :=
  default 0%Q (_last_ad_at g !! user_id).

Definition is_fetch (e : Effect) : bool :=
  match e with requests_get_call _ _ => true | _ => false end.

Definition is_log (e : Effect) : bool :=
  match e with log_call _ _ _ => true | _ => false end.

(** The URL the f-string builds. *)
Definition fetch_url (tgid : Z) (g : Globals) : string :=
  AD_API +:+ "?tgid=" +:+ pretty tgid +:+ "&blockid=" +:+ format_opt (BLOCK_ID g).

(** The payload a given answer of the server leads to. *)
Definition served (answer : Res Response) : option (gmap string json) :=
  match answer with
  | Ok resp =>
      if status_code resp =? 200 then
        match resp_json resp with
        | Ok (JObj d) => if truthy (dict_get d "button_name") then Some d else None
        | _ => None
        end
      else None
  | Raise _ => None
  end.

(** The keyboard and the message built from a payload [d], as the body of
    [show_ads_common] computes them. *)
Definition ad_markup (d : gmap string json) : InlineKeyboardMarkup :=
  [url_button (dict_get d "button_name")
     (dict_get_default d "click_url" (JStr "https://t.me"))]
  :: (if truthy (dict_get d "button_reward_name") && truthy (dict_get d "reward_url")
      then [[url_button (dict_get d "button_reward_name") (dict_get d "reward_url")]]
      else []).

Definition ad_message (target : Message) (d : gmap string json) : Effect :=
  let body := py_or (dict_get d "text_html") (JStr "Sponsored") in
  if truthy (dict_get d "image_url") then
    reply_photo_call target (dict_get d "image_url") body
      (Some HTML) (Some (ad_markup d)) (Some true)
  else
    reply_text_call target body (Some HTML) (Some (ad_markup d)) (Some true).

(** The callbacks [main] registers, by name. *)
Definition callback (h : HandlerName) : Update → Context → Py unit :=
  match h with
  | h_start => start
  | h_help_cmd => help_cmd
  | h_ads_cmd => ads_cmd
  | h_button_cb => button_cb
  end.

(** An ad request is the [/ads] command or a tap whose callback data is
    ["show_ads"]. *)
Definition is_ad_request (h : HandlerName) (u : Update) : Prop :=
  h = h_ads_cmd ∨ (h = h_button_cb ∧ data (callback_query u) = Some "show_ads").

(** The message the handler replies to, and the acknowledgement it sends
    before anything else. *)
Definition target_of (h : HandlerName) (u : Update) : option Message :=
  match h with
  | h_button_cb => query_message (callback_query u)
  | _ => message u
  end.

Definition ack_of (h : HandlerName) (u : Update) : list Effect :=
  match h with
  | h_button_cb => [answer_call (callback_query u)]
  | _ => []
  end.

(** The handler gets as far as the cooldown check: a command always does,
    a tap does once Telegram has accepted the acknowledgement. *)
Definition reaches_check (h : HandlerName) (u : Update) (w : World) : Prop :=
  match h with
  | h_button_cb => telegram w (answer_call (callback_query u)) = Ok tt
  | _ => True
  end.

(** What replying to [target] does: the call and Telegram's answer, or an
    [AttributeError] and no call when there is no message to reply to. *)
Definition reply_outcome (w : World) (target : option Message) (attribute : string)
    (call : Message → Effect) : Res unit * list Effect :=
  match target with
  | Some m => (telegram w (call m), [call m])
  | None => (Raise (AttributeError attribute), [])
  end.

Definition wait_call (m : Message) : Effect :=
  reply_text_call m wait_notice None None None.

Definition no_ad_call (m : Message) : Effect :=
  reply_text_call m no_ad_notice None None None.

(** The method an ad message is sent with. *)
Definition ad_attribute (d : gmap string json) : string :=
  if truthy (dict_get d "image_url") then "reply_photo" else "reply_text".

Definition is_telegram (e : Effect) : bool :=
  match e with
  | answer_call _ => true
  | reply_text_call _ _ _ _ _ => true
  | reply_photo_call _ _ _ _ _ _ => true
  | _ => false
  end.

(** A reply that carries an ad: formatted, with a keyboard. *)
Definition is_ad_message (e : Effect) : bool :=
  match e with
  | reply_text_call _ _ (Some HTML) (Some _) _ => true
  | reply_photo_call _ _ _ (Some HTML) (Some _) _ => true
  | _ => false
  end.

Definition markup_of (e : Effect) : option InlineKeyboardMarkup :=
  match e with
  | reply_text_call _ _ _ m _ => m
  | reply_photo_call _ _ _ _ m _ => m
  | _ => None
  end.

(** The calls a successful start-up makes, in order. *)
Definition startup_calls (token : option string) : list Effect :=
  [basicConfig_call INFO "%(asctime)s | %(levelname)s | %(name)s | %(message)s";
   build_call token;
   add_handler_call (CommandHandler "start" h_start);
   add_handler_call (CommandHandler "help" h_help_cmd);
   add_handler_call (CommandHandler "ads" h_ads_cmd);
   add_handler_call (CallbackQueryHandler h_button_cb);
   log_call INFO "Bot starting…" [];
   run_polling_call].

(** ** Vocabulary of the further properties *)

Definition is_reply (e : Effect) : bool :=
  match e with
  | reply_text_call _ _ _ _ _ => true
  | reply_photo_call _ _ _ _ _ _ => true
  | _ => false
  end.

Definition is_warning (e : Effect) : bool :=
  match e with log_call WARNING _ _ => true | _ => false end.

(** The text of a text reply, the caption of a photo reply. *)
Definition body_of (e : Effect) : option json :=
  match e with
  | reply_text_call _ body _ _ _ => Some body
  | reply_photo_call _ _ caption _ _ _ => Some caption
  | _ => None
  end.

(** The labels of all buttons a reply carries. *)
Definition labels_of (e : Effect) : list json :=
  match markup_of e with
  | Some rows => btn_text <$> concat rows
  | None => []
  end.

(** Cooldown checks of any users, one after the other: the clock readings
    at which [user_id] was allowed. *)
Fixpoint granted (user_id : Z) (reqs : list (Z * World)) (g : Globals) : list Q :=
  match reqs with
  | [] => []
  | (uid, w) :: reqs' =>
      let r := _cooldown_ok uid w g in
      match result r with
      | Ok true =>
          if bool_decide (uid = user_id)
          then time_time w :: granted user_id reqs' (globals r)
          else granted user_id reqs' (globals r)
      | _ => granted user_id reqs' (globals r)
      end
  end.

(** Each reading is at least the cooldown after the one before it. *)
Fixpoint spaced (last : Q) (ts : list Q) : Prop :=
  match ts with
  | [] => True
  | t :: ts' => (COOLDOWN_SECONDS <= t - last)%Q ∧ spaced t ts'
  end.

(** A trace that ends in the attempt to reply: [before] holds no reply and
    at most one request, and the reply is what [reply_outcome] says. *)
Definition ends_in_reply (w : World) (target : option Message)
    (run : Res unit * Globals * list Effect) (before : list Effect) : Prop :=
  ∃ attribute call,
    (∀ m, is_reply (call m) = true ∧ is_fetch (call m) = false)
    ∧ List.filter is_reply before = []
    ∧ (length (List.filter is_fetch before) ≤ 1)%nat
    ∧ result run = (reply_outcome w target attribute call).1
    ∧ effects run = before ++ (reply_outcome w target attribute call).2.

(** One delivery of an update to a handler, and a sequence of them: each
    run starts from the globals the one before left, however it ended. *)
Record Delivery : Type := {
  to_handler : HandlerName;
  delivered : Update;
  with_context : Context;
  in_world : World
}.

Fixpoint deliver (events : list Delivery) (g : Globals) : Globals :=
  match events with
  | [] => g
  | ev :: rest =>
      deliver rest
        (globals (callback (to_handler ev) (delivered ev) (with_context ev)
                    (in_world ev) g))
  end.

(** ** Sample inputs *)

Definition sample_payload : gmap string json := {["button_name" := JStr "View"]}.

Definition rewarded_payload : gmap string json :=
  <["button_name" := JStr "View"]>
    (<["button_reward_name" := JStr "Claim"]>
       (<["reward_url" := JStr "https://x"]> ∅)).

Definition answer_with (status : Z) (body : Res json) : string → Z → Res Response :=
  λ _ _, Ok {| status_code := status; text := ""; resp_json := body |}.

(** An excerpt of the Unicode table of digits: ASCII, superscript one to
    three, Arabic-Indic and extended Arabic-Indic, Devanagari, full-width. *)
Definition unicode_digit_excerpt (cp : N) : bool :=
  ((48 <=? cp) && (cp <=? 57)
   || (cp =? 178) || (cp =? 179) || (cp =? 185)
   || (1632 <=? cp) && (cp <=? 1641)
   || (1776 <=? cp) && (cp <=? 1785)
   || (2406 <=? cp) && (cp <=? 2415)
   || (65296 <=? cp) && (cp <=? 65305))%N.

(** A world in which Telegram accepts every call. *)
Definition world_at (now : Q) (answer : string → Z → Res Response) : World :=
  {| environ := ∅; time_time := now; requests_get := answer;
     unicode_digit := unicode_digit_excerpt; telegram := λ _, Ok tt |}.

(** The same clock and server, but Telegram refuses every call. *)
Definition refusing (w : World) : World :=
  {| environ := environ w; time_time := time_time w; requests_get := requests_get w;
     unicode_digit := unicode_digit w;
     telegram := λ _, Raise (TelegramError "Forbidden: bot was blocked by the user") |}.

Definition configured : Globals :=
  {| BOT_TOKEN := Some "123456:ABC"; BLOCK_ID := Some "123456"; _last_ad_at := ∅ |}.

Definition served_at_100 : Globals :=
  {| BOT_TOKEN := Some "123456:ABC"; BLOCK_ID := Some "123456";
     _last_ad_at := {[7 := 100%Q]} |}.

Definition recently_served : Globals :=
  {| BOT_TOKEN := Some "123456:ABC"; BLOCK_ID := Some "123456";
     _last_ad_at := {[42 := 1700000000%Q]} |}.

(** Three seconds after the epoch, a server that would serve an ad. *)
Definition epoch_world : World := world_at 3 (answer_with 200 (Ok (JObj sample_payload))).

Definition serving_world : World :=
  world_at 1700000100 (answer_with 200 (Ok (JObj rewarded_payload))).

Definition hasty_world : World :=
  world_at 1700000003 (answer_with 200 (Ok (JObj rewarded_payload))).

Definition failing_world : World :=
  world_at 1700000100 (λ _ _, Raise (Timeout "read timed out")).

Definition sample_update : Update :=
  {| effective_user := {| id := 42 |};
     message := Some {| chat_id := 1; message_id := 2 |};
     callback_query :=
       {| query_id := "q"; data := Some "show_ads";
          query_message := Some {| chat_id := 1; message_id := 3 |} |} |}.

Definition other_tap : Update :=
  {| effective_user := {| id := 42 |};
     message := Some {| chat_id := 1; message_id := 2 |};
     callback_query :=
       {| query_id := "q"; data := Some "something_else";
          query_message := Some {| chat_id := 1; message_id := 3 |} |} |}.

(** An edited [/ads] command: the update carries [edited_message], and
    [update.message] is [None]. *)
Definition edited_ads : Update :=
  {| effective_user := {| id := 42 |};
     message := None;
     callback_query :=
       {| query_id := ""; data := None; query_message := None |} |}.

(** A payload whose [click_url] is there but empty. *)
Definition empty_click_payload : gmap string json :=
  <["button_name" := JStr "View"]> (<["click_url" := JStr ""]> ∅).

Definition token_variable : string := "7016999277:AAEa5b_-_AxuhXp1U6JeP_eO822ORHHc0L4".
Definition block_variable : string := "int-14249".

Definition startup_world (token block : option string) : World :=
  {| environ :=
       match token with Some t => <[token_variable := t]> | None => λ m, m end
         (match block with Some b => <[block_variable := b]> | None => λ m, m end ∅);
     time_time := 1700000000;
     requests_get := λ _ _, Raise (Timeout "read timed out");
     unicode_digit := unicode_digit_excerpt; telegram := λ _, Ok tt |}.

(** * Properties *)

Ltac run_simpl := unfold result, globals, effects; simpl.

(** Projections of an explicit triple. *)
Ltac run_proj :=
  repeat first
    [ progress change (result (?r, ?s, ?t)) with r
    | progress change (globals (?r, ?s, ?t)) with s
    | progress change (effects (?r, ?s, ?t)) with t ].

(** ** Cooldown tracker *)

Section Cooldown.
Variable user_id : Z.

Lemma cooldown_run w g :
  _cooldown_ok user_id w g =
    if Qle_bool COOLDOWN_SECONDS (time_time w - last_seen user_id g)
    then (Ok true,
          {| BOT_TOKEN := BOT_TOKEN g; BLOCK_ID := BLOCK_ID g;
             _last_ad_at := <[user_id := time_time w]> (_last_ad_at g) |},
          [time_time_call])
    else (Ok false, g, [time_time_call]).
Proof.
  unfold _cooldown_ok, last_seen, mbind, mret, Py_bind, Py_ret, py_bind; simpl.
  destruct (Qle_bool _ _); reflexivity.
Qed.

Lemma cooldown_allowed_iff w g :
  result (_cooldown_ok user_id w g) = Ok true
  ↔ (COOLDOWN_SECONDS <= time_time w - last_seen user_id g)%Q.
Proof.
  rewrite cooldown_run, <- Qle_bool_iff.
  destruct (Qle_bool _ _); run_simpl; split; congruence.
Qed.

Lemma cooldown_denied_iff w g :
  result (_cooldown_ok user_id w g) = Ok false
  ↔ ¬ (COOLDOWN_SECONDS <= time_time w - last_seen user_id g)%Q.
Proof.
  rewrite cooldown_run, <- Qle_bool_iff.
  destruct (Qle_bool _ _); run_simpl; split; congruence.
Qed.

Lemma cooldown_total w g :
  result (_cooldown_ok user_id w g) = Ok true
  ∨ result (_cooldown_ok user_id w g) = Ok false.
Proof. rewrite cooldown_run. destruct (Qle_bool _ _); auto. Qed.

Lemma cooldown_allowed_globals w g :
  result (_cooldown_ok user_id w g) = Ok true →
  globals (_cooldown_ok user_id w g) =
    {| BOT_TOKEN := BOT_TOKEN g; BLOCK_ID := BLOCK_ID g;
       _last_ad_at := <[user_id := time_time w]> (_last_ad_at g) |}.
Proof. rewrite cooldown_run. destruct (Qle_bool _ _); run_simpl; congruence. Qed.

Lemma cooldown_denied_globals w g :
  result (_cooldown_ok user_id w g) = Ok false →
  globals (_cooldown_ok user_id w g) = g.
Proof. rewrite cooldown_run. destruct (Qle_bool _ _); run_simpl; congruence. Qed.

Lemma cooldown_effects w g :
  effects (_cooldown_ok user_id w g) = [time_time_call].
Proof. rewrite cooldown_run. destruct (Qle_bool _ _); reflexivity. Qed.

Lemma cooldown_records w g :
  result (_cooldown_ok user_id w g) = Ok true →
  _last_ad_at (globals (_cooldown_ok user_id w g)) !! user_id = Some (time_time w).
Proof.
  intros H. rewrite (cooldown_allowed_globals _ _ H). simpl.
  apply lookup_insert_eq.
Qed.

Lemma last_seen_recorded g last :
  _last_ad_at g !! user_id = Some last → last_seen user_id g = last.
Proof. unfold last_seen. intros ->. reflexivity. Qed.

Lemma last_seen_fresh g :
  _last_ad_at g !! user_id = None → last_seen user_id g = 0%Q.
Proof. unfold last_seen. intros ->. reflexivity. Qed.
End Cooldown.

(** ** Ad fetcher *)

Section Fetcher.
Variable tgid : Z.

Ltac fetch_cases w g :=
  unfold _fetch_ad, try_except, call_requests_get, get_BLOCK_ID, lift_res, log,
    emit, raise, mbind, mret, Py_bind, Py_ret, py_bind, py_ret, fetch_url, served;
  run_simpl;
  destruct (requests_get w _ 10) as [resp|e]; simpl;
  [ destruct (status_code resp =? 200); simpl;
    [ destruct (resp_json resp) as [[| | | | | |d]|e]; simpl;
      try destruct (truthy (dict_get d "button_name")); simpl
    | ]
  | ].

Lemma fetch_result w g :
  result (_fetch_ad tgid w g) = Ok (served (requests_get w (fetch_url tgid g) 10)).
Proof. fetch_cases w g; reflexivity. Qed.

Lemma fetch_globals w g : globals (_fetch_ad tgid w g) = g.
Proof. fetch_cases w g; reflexivity. Qed.

Lemma fetch_effects w g :
  ∃ logs, effects (_fetch_ad tgid w g) = requests_get_call (fetch_url tgid g) 10 :: logs
          ∧ forallb is_log logs = true.
Proof. fetch_cases w g; eexists; split; reflexivity. Qed.

Lemma served_Some answer d :
  served answer = Some d
  ↔ ∃ resp, answer = Ok resp ∧ status_code resp = 200
            ∧ resp_json resp = Ok (JObj d)
            ∧ truthy (dict_get d "button_name") = true.
Proof.
  unfold served. split.
  - destruct answer as [resp|e]; [|discriminate].
    destruct (Z.eqb_spec (status_code resp) 200) as [Hs|Hs]; [|discriminate].
    destruct (resp_json resp) as [[| | | | | |d']|e] eqn:Hj; try discriminate.
    destruct (truthy (dict_get d' "button_name")) eqn:Ht; [|discriminate].
    intros [= <-]. exists resp. auto.
  - intros (resp & -> & Hs & Hj & Ht). rewrite Hs, Hj, Ht. reflexivity.
Qed.
End Fetcher.

Lemma truthy_get_present (d : gmap string json) (k : string) :
  truthy (dict_get d k) = true → d !! k = Some (dict_get d k).
Proof.
  unfold dict_get, dict_get_default. destruct (d !! k); simpl; [reflexivity|discriminate].
Qed.

Lemma truthy_get_iff (d : gmap string json) (k : string) :
  truthy (dict_get d k) = true ↔ ∃ v, d !! k = Some v ∧ truthy v = true.
Proof.
  unfold dict_get, dict_get_default. destruct (d !! k) as [v|]; simpl; split.
  - intros Hv. exists v. split; [reflexivity|exact Hv].
  - intros (v' & [= <-] & Hv). exact Hv.
  - discriminate.
  - intros (v' & Hv & _). discriminate.
Qed.

Lemma truthy_str s : truthy (JStr s) = true ↔ s ≠ "".
Proof.
  simpl. destruct (String.eqb_spec s ""); simpl; split; congruence.
Qed.

Lemma served_dict_truthy answer d : served answer = Some d → truthy (JObj d) = true.
Proof.
  intros H. apply served_Some in H as (_ & _ & _ & _ & Ht).
  apply truthy_get_present in Ht. simpl.
  destruct (map_to_list d) eqn:Hl; [|reflexivity].
  apply map_to_list_empty_iff in Hl. subst d. rewrite lookup_empty in Ht. discriminate.
Qed.

(** ** Sequencing *)

Lemma run_eta {A} (x : Res A * Globals * list Effect) :
  x = (result x, globals x, effects x).
Proof. destruct x as [[r g] t]. reflexivity. Qed.

Lemma bind_run_ok {A B} (m : Py A) (f : A → Py B) w g a :
  result (m w g) = Ok a →
  (m ≫= f) w g =
    (result (f a w (globals (m w g))), globals (f a w (globals (m w g))),
     effects (m w g) ++ effects (f a w (globals (m w g)))).
Proof.
  unfold mbind, Py_bind, py_bind. destruct (m w g) as [[r g1] t1]. run_simpl.
  intros ->. destruct (f a w g1) as [[r2 g2] t2]. reflexivity.
Qed.

Lemma bind_run_raise {A B} (m : Py A) (f : A → Py B) w g e :
  result (m w g) = Raise e →
  (m ≫= f) w g = (Raise e, globals (m w g), effects (m w g)).
Proof.
  unfold mbind, Py_bind, py_bind. destruct (m w g) as [[r g1] t1]. run_simpl.
  intros ->. reflexivity.
Qed.

(** ** Dispatcher and renderer *)

Lemma opt_dict_get_Some d k : opt_dict_get (Some d) k = dict_get d k.
Proof. reflexivity. Qed.

Lemma opt_dict_get_default_Some d k v :
  opt_dict_get_default (Some d) k v = dict_get_default d k v.
Proof. reflexivity. Qed.

Section Dispatcher.
Variables (update : Update) (context : Context) (reply_target : option Message).

Let user_id := id (effective_user update).

Lemma reply_text_run body pm markup protect w g :
  reply_text reply_target body pm markup protect w g =
    let o := reply_outcome w reply_target "reply_text"
               (λ m, reply_text_call m body pm markup protect) in
    (o.1, g, o.2).
Proof. destruct reply_target; reflexivity. Qed.

Lemma reply_photo_run photo caption pm markup protect w g :
  reply_photo reply_target photo caption pm markup protect w g =
    let o := reply_outcome w reply_target "reply_photo"
               (λ m, reply_photo_call m photo caption pm markup protect) in
    (o.1, g, o.2).
Proof. destruct reply_target; reflexivity. Qed.

Lemma show_ads_denied w g :
  result (_cooldown_ok user_id w g) = Ok false →
  show_ads_common update context reply_target w g =
    let o := reply_outcome w reply_target "reply_text" wait_call in
    (o.1, g, time_time_call :: o.2).
Proof.
  intros H. unfold show_ads_common. fold user_id.
  rewrite (bind_run_ok _ _ _ _ _ H), (cooldown_denied_globals _ _ _ H), cooldown_effects.
  cbn [negb]. rewrite reply_text_run. reflexivity.
Qed.

Lemma show_ads_no_fill w g :
  result (_cooldown_ok user_id w g) = Ok true →
  let g1 := globals (_cooldown_ok user_id w g) in
  served (requests_get w (fetch_url user_id g1) 10) = None →
  show_ads_common update context reply_target w g =
    let o := reply_outcome w reply_target "reply_text" no_ad_call in
    (o.1, g1, time_time_call :: effects (_fetch_ad user_id w g1) ++ o.2).
Proof.
  intros H g1 Hs. unfold show_ads_common. fold user_id.
  rewrite (bind_run_ok _ _ _ _ _ H), cooldown_effects. fold g1. cbn [negb].
  assert (Hf : result (_fetch_ad user_id w g1) = Ok None)
    by (rewrite fetch_result, Hs; reflexivity).
  rewrite (bind_run_ok _ _ _ _ _ Hf), fetch_globals.
  cbn [truthy_opt_dict negb]. rewrite reply_text_run. reflexivity.
Qed.

Lemma show_ads_served w g d :
  result (_cooldown_ok user_id w g) = Ok true →
  let g1 := globals (_cooldown_ok user_id w g) in
  served (requests_get w (fetch_url user_id g1) 10) = Some d →
  show_ads_common update context reply_target w g =
    let o := reply_outcome w reply_target (ad_attribute d) (λ m, ad_message m d) in
    (o.1, g1, time_time_call :: effects (_fetch_ad user_id w g1) ++ o.2).
Proof.
  intros H g1 Hs. unfold show_ads_common. fold user_id.
  rewrite (bind_run_ok _ _ _ _ _ H), cooldown_effects. fold g1. cbn [negb].
  assert (Hf : result (_fetch_ad user_id w g1) = Ok (Some d))
    by (rewrite fetch_result, Hs; reflexivity).
  rewrite (bind_run_ok _ _ _ _ _ Hf), fetch_globals.
  pose proof (served_dict_truthy _ _ Hs) as Hd.
  apply served_Some in Hs as (_ & _ & _ & _ & Hn).
  pose proof (truthy_get_present _ _ Hn) as Hl.
  cbv beta. rewrite !opt_dict_get_Some, !opt_dict_get_default_Some.
  unfold truthy_opt_dict. rewrite Hd. cbn [negb].
  unfold ad_attribute, ad_message, ad_markup, subscript, getitem. rewrite Hl.
  destruct (truthy (dict_get d "button_reward_name")) eqn:Hr1;
    destruct (truthy (dict_get d "reward_url")) eqn:Hr2;
    try rewrite (truthy_get_present _ _ Hr1);
    try rewrite (truthy_get_present _ _ Hr2);
    destruct (truthy (dict_get d "image_url")) eqn:Hi;
    destruct reply_target;
    reflexivity.
Qed.
End Dispatcher.

(** ** Claims about the cooldown tracker *)

(** C2, as the specification words it, fails three seconds after the epoch:
    user 7 has no prior record, yet the check compares the clock against the
    default timestamp 0 and denies. *)
Lemma cooldown_epoch_counterexample :
  _last_ad_at configured !! 7 = None
  ∧ result (_cooldown_ok 7 epoch_world configured) = Ok false.
Proof. split; reflexivity. Qed.

(** C2 (amended): at every call time at least 8 seconds after the epoch, the
    cooldown check returns true if and only if the user has no prior record
    or at least 8 seconds have elapsed since the user's last recorded
    timestamp; when it returns true the same call records the current time
    for that user; and a second request at least 8 seconds after an allowed
    one is allowed too, so for a user without a record both are allowed. *)
Theorem cooldown_ok_spec (user_id : Z) (w : World) (g : Globals) :
  (COOLDOWN_SECONDS <= time_time w)%Q →
  let r := _cooldown_ok user_id w g in
  (result r = Ok true
   ↔ _last_ad_at g !! user_id = None
     ∨ ∃ last, _last_ad_at g !! user_id = Some last
               ∧ (COOLDOWN_SECONDS <= time_time w - last)%Q)
  ∧ (result r = Ok true ∨ result r = Ok false)
  ∧ (result r = Ok true →
     _last_ad_at (globals r) !! user_id = Some (time_time w))
  ∧ (∀ w2, (COOLDOWN_SECONDS <= time_time w2 - time_time w)%Q →
       result r = Ok true →
       result (_cooldown_ok user_id w2 (globals r)) = Ok true)
  ∧ (∀ w2, (COOLDOWN_SECONDS <= time_time w2 - time_time w)%Q →
       _last_ad_at g !! user_id = None →
       result r = Ok true
       ∧ result (_cooldown_ok user_id w2 (globals r)) = Ok true).
Proof.
  intros Hnow. cbv zeta.
  set (r := _cooldown_ok user_id w g).
  assert (Hnext : ∀ w2, (COOLDOWN_SECONDS <= time_time w2 - time_time w)%Q →
            result r = Ok true →
            result (_cooldown_ok user_id w2 (globals r)) = Ok true).
  { intros w2 Hgap Hr. apply cooldown_allowed_iff. subst r.
    rewrite (last_seen_recorded _ _ _ (cooldown_records _ _ _ Hr)). exact Hgap. }
  assert (Hzero : (COOLDOWN_SECONDS <= time_time w - 0)%Q).
  { unfold Qminus. simpl Qopp. rewrite Qplus_0_r. exact Hnow. }
  assert (Hfresh : _last_ad_at g !! user_id = None → result r = Ok true).
  { intros Hnone. apply cooldown_allowed_iff.
    rewrite (last_seen_fresh _ _ Hnone). exact Hzero. }
  split; [|split; [|split; [|split]]].
  - subst r. rewrite cooldown_allowed_iff. unfold last_seen.
    destruct (_last_ad_at g !! user_id) as [last|] eqn:Hl; simpl.
    + split.
      * intros H. right. exists last. auto.
      * intros [H | (last' & [= <-] & H)]; [discriminate | exact H].
    + split; [auto|]. intros _. exact Hzero.
  - apply cooldown_total.
  - apply cooldown_records.
  - exact Hnext.
  - intros w2 Hgap Hnone. split; [auto|]. apply Hnext; auto.
Qed.

Lemma cooldown_ok_spec_witness :
  (COOLDOWN_SECONDS <= 1700000000)%Q
  ∧ result (_cooldown_ok 7
              (world_at 1700000000 (answer_with 200 (Ok (JObj sample_payload))))
              configured) = Ok true.
Proof.
  split; [discriminate|].
  apply (cooldown_ok_spec 7
           (world_at 1700000000 (answer_with 200 (Ok (JObj sample_payload))))
           configured); [discriminate|].
  left. reflexivity.
Defined.

(** C9: a denied request leaves the globals, and with them the whole
    cooldown map, exactly as they were; hence after any number of denied
    requests the user is allowed again as soon as 8 seconds have passed
    since the timestamp of the last allowed request. *)
Theorem cooldown_denied_frame (user_id : Z) (g : Globals) :
  (∀ w, result (_cooldown_ok user_id w g) = Ok false →
        globals (_cooldown_ok user_id w g) = g)
  ∧ (∀ ws last w,
       _last_ad_at g !! user_id = Some last →
       Forall (λ r, r = Ok false) (run_all (_cooldown_ok user_id) ws g).1 →
       (run_all (_cooldown_ok user_id) ws g).2 = g
       ∧ ((COOLDOWN_SECONDS <= time_time w - last)%Q →
          result (_cooldown_ok user_id w (run_all (_cooldown_ok user_id) ws g).2)
          = Ok true)).
Proof.
  split; [intros w; apply cooldown_denied_globals|].
  intros ws last w Hlast Hall.
  assert (Hsame : (run_all (_cooldown_ok user_id) ws g).2 = g).
  { clear Hlast. induction ws as [|w1 ws IH]; [reflexivity|].
    simpl in *.
    destruct (run_all (_cooldown_ok user_id) ws
                (globals (_cooldown_ok user_id w1 g))) as [rs g'] eqn:Hrun.
    simpl in *. inversion Hall as [|? ? Hhd Htl]; subst.
    rewrite (cooldown_denied_globals _ _ _ Hhd) in Hrun.
    rewrite Hrun in IH. simpl in IH. auto. }
  split; [exact Hsame|].
  intros Hgap. rewrite Hsame. apply cooldown_allowed_iff.
  rewrite (last_seen_recorded _ _ _ Hlast). exact Hgap.
Qed.

Lemma cooldown_denied_frame_witness :
  (run_all (_cooldown_ok 7)
     [world_at 103 (answer_with 200 (Ok JNull)); world_at 105 (answer_with 200 (Ok JNull))]
     served_at_100).2 = served_at_100
  ∧ result (_cooldown_ok 7 (world_at 108 (answer_with 200 (Ok JNull)))
      (run_all (_cooldown_ok 7)
         [world_at 103 (answer_with 200 (Ok JNull));
          world_at 105 (answer_with 200 (Ok JNull))]
         served_at_100).2) = Ok true.
Proof.
  destruct (cooldown_denied_frame 7 served_at_100) as [_ H].
  destruct (H [world_at 103 (answer_with 200 (Ok JNull));
               world_at 105 (answer_with 200 (Ok JNull))]
              100%Q (world_at 108 (answer_with 200 (Ok JNull)))) as [H1 H2].
  - reflexivity.
  - repeat constructor.
  - split; [exact H1|]. apply H2. discriminate.
Defined.

(** ** Claims about the ad fetcher *)

(** C1, as the specification words it, fails on a 201 answer: the status is
    2xx and the body is an object with a non-empty [button_name], yet the
    fetcher logs the answer as non-200 and returns absent. *)
Lemma fetch_ad_201_counterexample :
  requests_get (world_at 100 (answer_with 201 (Ok (JObj sample_payload))))
    (fetch_url 42 configured) 10
  = Ok {| status_code := 201; text := ""; resp_json := Ok (JObj sample_payload) |}
  ∧ 200 ≤ 201 < 300
  ∧ sample_payload !! "button_name" = Some (JStr "View")
  ∧ result (_fetch_ad 42 (world_at 100 (answer_with 201 (Ok (JObj sample_payload))))
              configured) = Ok None.
Proof. repeat split; (reflexivity || discriminate). Qed.

(** C1 (amended): the ad fetcher returns the parsed payload if and only if
    the HTTP status is exactly 200 and the body parses to an object whose
    [button_name] field is present and non-empty in Python's sense (truthy);
    in every other case it returns absent. *)
Theorem fetch_ad_payload_iff (tgid : Z) (w : World) (g : Globals) :
  let valid d :=
    ∃ resp, requests_get w (fetch_url tgid g) 10 = Ok resp
            ∧ status_code resp = 200
            ∧ resp_json resp = Ok (JObj d)
            ∧ ∃ v, d !! "button_name" = Some v ∧ truthy v = true in
  (∀ d, result (_fetch_ad tgid w g) = Ok (Some d) ↔ valid d)
  ∧ ((¬ ∃ d, valid d) → result (_fetch_ad tgid w g) = Ok None).
Proof.
  cbv zeta. rewrite fetch_result.
  assert (Hiff : ∀ d, served (requests_get w (fetch_url tgid g) 10) = Some d
                      ↔ ∃ resp, requests_get w (fetch_url tgid g) 10 = Ok resp
                                ∧ status_code resp = 200
                                ∧ resp_json resp = Ok (JObj d)
                                ∧ ∃ v, d !! "button_name" = Some v ∧ truthy v = true).
  { intros d. rewrite served_Some. split.
    - intros (resp & H1 & H2 & H3 & H4). exists resp.
      apply truthy_get_iff in H4. auto.
    - intros (resp & H1 & H2 & H3 & H4). exists resp.
      apply truthy_get_iff in H4. auto. }
  split.
  - intros d. rewrite <- Hiff. split; congruence.
  - intros Hno. destruct (served _) as [d|] eqn:Hs; [|reflexivity].
    exfalso. apply Hno. exists d. apply Hiff. reflexivity.
Qed.

Lemma fetch_ad_payload_iff_witness :
  result (_fetch_ad 42 serving_world configured) = Ok (Some rewarded_payload)
  ∧ result (_fetch_ad 42 failing_world configured) = Ok None.
Proof.
  split.
  - apply (fetch_ad_payload_iff 42 serving_world configured).
    eexists. repeat split; try reflexivity.
    exists (JStr "View"). split; reflexivity.
  - apply (fetch_ad_payload_iff 42 failing_world configured).
    intros (d & resp & Hget & _). discriminate Hget.
Defined.

(** C7: whatever the HTTP call does, the fetcher returns normally: an
    exception raised by the request, or by decoding the body, becomes an
    absent result; and each invocation issues exactly one request, with a
    timeout of 10 seconds. *)
Theorem fetch_ad_best_effort (tgid : Z) (w : World) (g : Globals) :
  (∃ o, result (_fetch_ad tgid w g) = Ok o)
  ∧ (∀ e, requests_get w (fetch_url tgid g) 10 = Raise e →
          result (_fetch_ad tgid w g) = Ok None)
  ∧ (∀ resp e, requests_get w (fetch_url tgid g) 10 = Ok resp →
               resp_json resp = Raise e →
               result (_fetch_ad tgid w g) = Ok None)
  ∧ List.filter is_fetch (effects (_fetch_ad tgid w g))
    = [requests_get_call (fetch_url tgid g) 10].
Proof.
  rewrite fetch_result. repeat split.
  - eauto.
  - intros e ->. reflexivity.
  - intros resp e -> He. simpl. rewrite He. destruct (_ =? _); reflexivity.
  - destruct (fetch_effects tgid w g) as (logs & -> & Hlogs). simpl. f_equal.
    induction logs as [|l logs IH]; [reflexivity|].
    simpl in *. apply andb_prop in Hlogs as [Hl Hlogs].
    destruct l; try discriminate. simpl. auto.
Qed.

Lemma fetch_ad_best_effort_witness :
  result (_fetch_ad 42 failing_world configured) = Ok None
  ∧ List.filter is_fetch (effects (_fetch_ad 42 failing_world configured))
    = [requests_get_call "https://api.adsgram.ai/advbot?tgid=42&blockid=123456" 10].
Proof.
  destruct (fetch_ad_best_effort 42 failing_world configured)
    as (_ & Hraise & _ & Honce).
  split; [apply (Hraise (Timeout "read timed out")); reflexivity | exact Honce].
Defined.

(** ** Claims about the dispatcher *)

Lemma button_cb_run u c w g :
  button_cb u c w g =
    match telegram w (answer_call (callback_query u)) with
    | Ok _ =>
        if bool_decide (data (callback_query u) = Some "show_ads") then
          let s := show_ads_common u c (query_message (callback_query u)) w g in
          (result s, globals s, answer_call (callback_query u) :: effects s)
        else (Ok tt, g, [answer_call (callback_query u)])
    | Raise e => (Raise e, g, [answer_call (callback_query u)])
    end.
Proof.
  unfold button_cb.
  destruct (telegram w (answer_call (callback_query u))) as [[]|e] eqn:Ha.
  - rewrite (bind_run_ok _ _ _ _ tt)
      by (unfold call_telegram, result; simpl; exact Ha).
    case_bool_decide; reflexivity.
  - rewrite (bind_run_raise _ _ _ _ e)
      by (unfold call_telegram, result; simpl; exact Ha).
    reflexivity.
Qed.

Lemma ad_request_run h u c w g :
  is_ad_request h u →
  reaches_check h u w →
  callback h u c w g =
    let s := show_ads_common u c (target_of h u) w g in
    (result s, globals s, ack_of h u ++ effects s).
Proof.
  intros [-> | [-> Hd]] Hack; simpl in Hack |- *.
  - unfold ads_cmd. apply run_eta.
  - rewrite button_cb_run, Hack, bool_decide_eq_true_2 by exact Hd. reflexivity.
Qed.

Lemma existsb_fetch_logs logs :
  forallb is_log logs = true → existsb is_ad_message logs = false.
Proof.
  induction logs as [|l logs IH]; [reflexivity|]. simpl.
  intros [Hl Hlogs]%andb_prop. destruct l; try discriminate. simpl. auto.
Qed.

Lemma fetch_no_ad_message tgid w g :
  existsb is_ad_message (effects (_fetch_ad tgid w g)) = false.
Proof.
  destruct (fetch_effects tgid w g) as (logs & -> & Hlogs). simpl.
  apply existsb_fetch_logs, Hlogs.
Qed.

Lemma ack_no_ad_message h u : existsb is_ad_message (ack_of h u) = false.
Proof. destruct h; reflexivity. Qed.

Lemma ack_no_fetch h u : existsb is_fetch (ack_of h u) = false.
Proof. destruct h; reflexivity. Qed.

Lemma ad_message_is_ad target d : is_ad_message (ad_message target d) = true.
Proof. unfold ad_message. destruct (truthy _); reflexivity. Qed.

Lemma fetch_result_served tgid w g o :
  result (_fetch_ad tgid w g) = Ok o →
  served (requests_get w (fetch_url tgid g) 10) = o.
Proof. rewrite fetch_result. congruence. Qed.

(** The trace of an ad request that has a message to reply to, in the
    three cases of the sequence. *)
Lemma ad_request_trace h u c w g t :
  is_ad_request h u →
  reaches_check h u w →
  target_of h u = Some t →
  let user_id := id (effective_user u) in
  let check := _cooldown_ok user_id w g in
  let fetch := _fetch_ad user_id w (globals check) in
  let run := callback h u c w g in
  (result check = Ok false →
   effects run = ack_of h u ++ [time_time_call; wait_call t])
  ∧ (result check = Ok true → result fetch = Ok None →
     effects run = ack_of h u ++ time_time_call :: effects fetch ++ [no_ad_call t])
  ∧ (result check = Ok true → ∀ d, result fetch = Ok (Some d) →
     effects run = ack_of h u ++ time_time_call :: effects fetch ++ [ad_message t d]).
Proof.
  intros Hreq Hack Ht. cbv zeta. rewrite (ad_request_run _ _ _ _ _ Hreq Hack). cbv zeta.
  change (effects (?r, ?s, ?t)) with t. rewrite Ht.
  split; [|split].
  - intros H. rewrite (show_ads_denied _ _ _ _ _ H). reflexivity.
  - intros H Hf. apply fetch_result_served in Hf.
    rewrite (show_ads_no_fill _ _ _ _ _ H Hf). reflexivity.
  - intros H d Hf. apply fetch_result_served in Hf.
    rewrite (show_ads_served _ _ _ _ _ _ H Hf). reflexivity.
Qed.

(** X14: the ad sequence, for every ad request whose update carries the
    message to reply to (and, for a tap, whose acknowledgement Telegram
    accepted).  The cooldown check comes first; if it denies, the only reply
    is the wait notice and no request is issued; if it allows and the fetch
    returns absent, the reply is the no-ad notice and no ad message is
    sent; an ad message is sent exactly when the check allows and the fetch
    returns a payload. *)
Theorem ad_request_sequence (h : HandlerName) (u : Update) (c : Context)
    (w : World) (g : Globals) (t : Message) :
  is_ad_request h u →
  reaches_check h u w →
  target_of h u = Some t →
  let user_id := id (effective_user u) in
  let check := _cooldown_ok user_id w g in
  let fetch := _fetch_ad user_id w (globals check) in
  let run := callback h u c w g in
  (result check = Ok false →
     effects run = ack_of h u ++
       [time_time_call; reply_text_call t wait_notice None None None]
     ∧ existsb is_fetch (effects run) = false)
  ∧ (result check = Ok true → result fetch = Ok None →
     effects run = ack_of h u ++ time_time_call :: effects fetch ++
       [reply_text_call t no_ad_notice None None None]
     ∧ existsb is_ad_message (effects run) = false)
  ∧ (result check = Ok true → ∀ d, result fetch = Ok (Some d) →
     ∃ m, effects run = ack_of h u ++ time_time_call :: effects fetch ++ [m]
          ∧ is_ad_message m = true)
  ∧ (existsb is_ad_message (effects run) = true →
     result check = Ok true ∧ ∃ d, result fetch = Ok (Some d)).
Proof.
  intros Hreq Hack Ht. cbv zeta.
  destruct (ad_request_trace h u c w g t Hreq Hack Ht) as (Hdenied & Hnofill & Hserved).
  cbv zeta in Hdenied, Hnofill, Hserved.
  set (user_id := id (effective_user u)) in *.
  set (check := _cooldown_ok user_id w g) in *.
  set (fetch := _fetch_ad user_id w (globals check)) in *.
  split; [|split; [|split]].
  - intros H. rewrite (Hdenied H). split; [reflexivity|].
    rewrite existsb_app, ack_no_fetch. reflexivity.
  - intros H Hf. rewrite (Hnofill H Hf). split; [reflexivity|].
    rewrite existsb_app, ack_no_ad_message. simpl.
    rewrite existsb_app. subst fetch. rewrite fetch_no_ad_message. reflexivity.
  - intros H d Hf. rewrite (Hserved H d Hf). eexists. split; [reflexivity|].
    apply ad_message_is_ad.
  - intros Hsent.
    destruct (cooldown_total user_id w g) as [H|H]; fold check in H.
    + split; [exact H|].
      destruct (result fetch) as [[d|]|e] eqn:Hf.
      * eauto.
      * rewrite (Hnofill H eq_refl), existsb_app, ack_no_ad_message in Hsent.
        simpl in Hsent. rewrite existsb_app in Hsent. subst fetch.
        rewrite fetch_no_ad_message in Hsent. discriminate.
      * subst fetch. rewrite fetch_result in Hf. discriminate.
    + rewrite (Hdenied H), existsb_app, ack_no_ad_message in Hsent. discriminate.
Qed.

Lemma ad_request_sequence_witness :
  is_ad_request h_button_cb sample_update
  ∧ effects (callback h_button_cb sample_update DEFAULT_TYPE hasty_world recently_served)
    = [answer_call (callback_query sample_update); time_time_call;
       reply_text_call {| chat_id := 1; message_id := 3 |}
         wait_notice None None None].
Proof.
  assert (Hreq : is_ad_request h_button_cb sample_update)
    by (right; split; reflexivity).
  split; [exact Hreq|].
  destruct (ad_request_sequence h_button_cb sample_update DEFAULT_TYPE
              hasty_world recently_served {| chat_id := 1; message_id := 3 |}
              Hreq eq_refl eq_refl) as [Hdenied _].
  apply Hdenied. reflexivity.
Defined.

(** An ad request without a message to reply to gets no answer: the
    cooldown check runs, and when it allows so does the fetch, but the reply
    raises [AttributeError] before any call is made. *)
Lemma filter_reply_logs logs :
  forallb is_log logs = true → List.filter is_reply logs = [].
Proof.
  induction logs as [|l logs IH]; [reflexivity|]. simpl.
  intros [Hl Hlogs]%andb_prop. destruct l; try discriminate. simpl. auto.
Qed.

Lemma fetch_no_reply tgid w g :
  List.filter is_reply (effects (_fetch_ad tgid w g)) = [].
Proof.
  destruct (fetch_effects tgid w g) as (logs & -> & Hlogs). simpl.
  apply filter_reply_logs, Hlogs.
Qed.

(** X15: an ad request whose update has no message to reply to is never
    answered.  The run raises [AttributeError] and makes no reply call, yet
    the cooldown check has run: the globals are those the check left, so an
    allowed request has used up the user's cooldown. *)
Theorem ad_request_without_target (h : HandlerName) (u : Update) (c : Context)
    (w : World) (g : Globals) :
  is_ad_request h u →
  reaches_check h u w →
  target_of h u = None →
  (∃ attribute, result (callback h u c w g) = Raise (AttributeError attribute))
  ∧ List.filter is_reply (effects (callback h u c w g)) = []
  ∧ globals (callback h u c w g)
    = globals (_cooldown_ok (id (effective_user u)) w g).
Proof.
  intros Hreq Hack Ht. rewrite (ad_request_run _ _ _ _ _ Hreq Hack). cbv zeta.
  rewrite Ht. run_proj.
  assert (Hack_nr : List.filter is_reply (ack_of h u) = []) by (destruct h; reflexivity).
  rewrite List.filter_app, Hack_nr. cbn [app].
  destruct (cooldown_total (id (effective_user u)) w g) as [H|H].
  - pose proof (fetch_no_reply (id (effective_user u)) w
                  (globals (_cooldown_ok (id (effective_user u)) w g))) as Hnr.
    destruct (served (requests_get w
                (fetch_url (id (effective_user u))
                   (globals (_cooldown_ok (id (effective_user u)) w g))) 10))
      as [d|] eqn:Hs.
    + rewrite (show_ads_served _ _ _ _ _ _ H Hs). unfold reply_outcome. cbv zeta.
      run_proj. cbn [fst snd List.filter is_reply]. rewrite app_nil_r, Hnr. eauto.
    + rewrite (show_ads_no_fill _ _ _ _ _ H Hs). unfold reply_outcome. cbv zeta.
      run_proj. cbn [fst snd List.filter is_reply]. rewrite app_nil_r, Hnr. eauto.
  - rewrite (show_ads_denied _ _ _ _ _ H), (cooldown_denied_globals _ _ _ H).
    unfold reply_outcome. cbv zeta. run_proj. cbn [fst snd List.filter is_reply]. eauto.
Qed.

Lemma ad_request_without_target_witness :
  is_ad_request h_ads_cmd edited_ads
  ∧ List.filter is_reply
      (effects (callback h_ads_cmd edited_ads DEFAULT_TYPE serving_world recently_served))
    = []
  ∧ _last_ad_at (globals (callback h_ads_cmd edited_ads DEFAULT_TYPE serving_world
                            recently_served)) !! 42
    = Some (time_time serving_world).
Proof.
  assert (Hreq : is_ad_request h_ads_cmd edited_ads) by (left; reflexivity).
  destruct (ad_request_without_target h_ads_cmd edited_ads DEFAULT_TYPE serving_world
              recently_served Hreq I eq_refl) as (_ & Hnr & Hg).
  split; [exact Hreq|]. split; [exact Hnr|]. rewrite Hg. reflexivity.
Defined.

(** C3 fails on an edited [/ads] command.  The handler registered for
    [/ads] also receives edited messages; [update.message] is then [None],
    [ads_cmd] passes it on as the reply target, and the run ends in an
    [AttributeError]: denied, the user gets no wait notice; allowed, the
    request to the ad network is made and the user gets neither an ad nor
    the no-ad notice. *)
Theorem edited_ads_command_unanswered :
  is_ad_request h_ads_cmd edited_ads
  ∧ callback h_ads_cmd edited_ads DEFAULT_TYPE hasty_world recently_served
    = (Raise (AttributeError "reply_text"), recently_served, [time_time_call])
  ∧ result (callback h_ads_cmd edited_ads DEFAULT_TYPE failing_world recently_served)
    = Raise (AttributeError "reply_text")
  ∧ effects (callback h_ads_cmd edited_ads DEFAULT_TYPE failing_world recently_served)
    = [time_time_call;
       requests_get_call "https://api.adsgram.ai/advbot?tgid=42&blockid=123456" 10;
       log_call EXCEPTION "Failed to fetch ad: %s" [ArgExn (Timeout "read timed out")]].
Proof.
  split; [left; reflexivity|]. split; [|split]; reflexivity.
Qed.

Lemma show_ads_globals u c t w g :
  globals (show_ads_common u c t w g)
  = globals (_cooldown_ok (id (effective_user u)) w g).
Proof.
  destruct (cooldown_total (id (effective_user u)) w g) as [H|H].
  - destruct (served (requests_get w
                (fetch_url (id (effective_user u))
                   (globals (_cooldown_ok (id (effective_user u)) w g))) 10))
      as [d|] eqn:Hs.
    + rewrite (show_ads_served _ _ _ _ _ _ H Hs). reflexivity.
    + rewrite (show_ads_no_fill _ _ _ _ _ H Hs). reflexivity.
  - rewrite (show_ads_denied _ _ _ _ _ H), (cooldown_denied_globals _ _ _ H).
    reflexivity.
Qed.

Lemma denied_request_no_fetch u c t w g :
  result (_cooldown_ok (id (effective_user u)) w g) = Ok false →
  List.filter is_fetch (effects (show_ads_common u c t w g)) = [].
Proof.
  intros H. rewrite (show_ads_denied _ _ _ _ _ H). destruct t; reflexivity.
Qed.

(** C10: when an ad request reaches the cooldown check and the check
    allows, the user's timestamp is the time of that check once the handler
    has finished, whatever the fetch returned and whatever became of the
    reply; so the same user's next request less than 8 seconds later is
    denied: no request is issued, and the reply is the wait notice. *)
Theorem allowed_request_starts_cooldown (h : HandlerName) (u : Update)
    (c : Context) (w : World) (g : Globals) :
  is_ad_request h u →
  reaches_check h u w →
  result (_cooldown_ok (id (effective_user u)) w g) = Ok true →
  let run := callback h u c w g in
  _last_ad_at (globals run) !! id (effective_user u) = Some (time_time w)
  ∧ (∀ h2 u2 c2 w2,
       is_ad_request h2 u2 →
       reaches_check h2 u2 w2 →
       id (effective_user u2) = id (effective_user u) →
       ¬ (COOLDOWN_SECONDS <= time_time w2 - time_time w)%Q →
       result (_cooldown_ok (id (effective_user u2)) w2 (globals run)) = Ok false
       ∧ List.filter is_fetch (effects (callback h2 u2 c2 w2 (globals run))) = []
       ∧ ∀ t2, target_of h2 u2 = Some t2 →
           effects (callback h2 u2 c2 w2 (globals run)) =
             ack_of h2 u2 ++
             [time_time_call; reply_text_call t2 wait_notice None None None]).
Proof.
  intros Hreq Hack Hok. cbv zeta.
  assert (Hg : globals (callback h u c w g)
               = globals (_cooldown_ok (id (effective_user u)) w g)).
  { rewrite (ad_request_run _ _ _ _ _ Hreq Hack). cbv zeta. run_proj.
    apply show_ads_globals. }
  rewrite Hg. split; [apply cooldown_records, Hok|].
  intros h2 u2 c2 w2 Hreq2 Hack2 Hsame Hsoon.
  assert (Hdenied : result (_cooldown_ok (id (effective_user u2)) w2
                              (globals (_cooldown_ok (id (effective_user u)) w g)))
                    = Ok false).
  { rewrite Hsame. apply cooldown_denied_iff.
    rewrite (last_seen_recorded _ _ _ (cooldown_records _ _ _ Hok)). exact Hsoon. }
  split; [exact Hdenied|].
  rewrite (ad_request_run _ _ _ _ _ Hreq2 Hack2). cbv zeta. run_proj.
  split.
  - rewrite List.filter_app, (denied_request_no_fetch _ _ _ _ _ Hdenied).
    destruct h2; reflexivity.
  - intros t2 Ht2. rewrite Ht2, (show_ads_denied _ _ _ _ _ Hdenied). reflexivity.
Qed.

Lemma allowed_request_starts_cooldown_witness :
  is_ad_request h_ads_cmd sample_update
  ∧ result (_cooldown_ok 42 failing_world recently_served) = Ok true
  ∧ _last_ad_at (globals (callback h_ads_cmd sample_update DEFAULT_TYPE
                            failing_world recently_served)) !! 42
    = Some (time_time failing_world).
Proof.
  assert (Hreq : is_ad_request h_ads_cmd sample_update) by (left; reflexivity).
  assert (Hok : result (_cooldown_ok (id (effective_user sample_update))
                          failing_world recently_served) = Ok true)
    by reflexivity.
  split; [exact Hreq|]. split; [exact Hok|].
  apply (allowed_request_starts_cooldown h_ads_cmd sample_update DEFAULT_TYPE
           failing_world recently_served Hreq I Hok).
Defined.

(** C8: every button tap is acknowledged first, whatever its callback data,
    the clock, the server or the state.  Once Telegram has accepted the
    acknowledgement, the ad sequence follows only when the data is
    ["show_ads"], and any other tap is acknowledged and nothing more.  When
    Telegram refuses the acknowledgement, its exception ends the handler
    and nothing else is done. *)
Theorem button_cb_acknowledges (u : Update) (c : Context) (w : World) (g : Globals) :
  let q := callback_query u in
  (∃ rest, effects (button_cb u c w g) = answer_call q :: rest)
  ∧ (telegram w (answer_call q) = Ok tt →
     data q = Some "show_ads" →
     let s := show_ads_common u c (query_message q) w g in
     button_cb u c w g = (result s, globals s, answer_call q :: effects s))
  ∧ (telegram w (answer_call q) = Ok tt →
     data q ≠ Some "show_ads" →
     button_cb u c w g = (Ok tt, g, [answer_call q]))
  ∧ (∀ e, telegram w (answer_call q) = Raise e →
     button_cb u c w g = (Raise e, g, [answer_call q])).
Proof.
  cbv zeta. rewrite button_cb_run.
  destruct (telegram w (answer_call (callback_query u))) as [[]|e].
  - case_bool_decide as Hd.
    + split; [eexists; reflexivity|]. split; [reflexivity|].
      split; [intros _ Hn; contradiction|discriminate].
    + split; [eexists; reflexivity|]. split; [intros _ H; contradiction|].
      split; [reflexivity|discriminate].
  - split; [eexists; reflexivity|]. split; [discriminate|].
    split; [discriminate|]. intros e' [= <-]. reflexivity.
Qed.

Lemma button_cb_acknowledges_witness :
  data (callback_query other_tap) ≠ Some "show_ads"
  ∧ button_cb other_tap DEFAULT_TYPE serving_world recently_served
    = (Ok tt, recently_served, [answer_call (callback_query other_tap)])
  ∧ button_cb sample_update DEFAULT_TYPE (refusing serving_world) recently_served
    = (Raise (TelegramError "Forbidden: bot was blocked by the user"),
       recently_served, [answer_call (callback_query sample_update)]).
Proof.
  assert (Hd : data (callback_query other_tap) ≠ Some "show_ads") by discriminate.
  split; [exact Hd|]. split.
  - apply (button_cb_acknowledges other_tap DEFAULT_TYPE serving_world recently_served);
      [reflexivity|exact Hd].
  - apply (button_cb_acknowledges sample_update DEFAULT_TYPE (refusing serving_world)
             recently_served).
    reflexivity.
Defined.

(** C5, as the specification words it, fails on a payload whose [click_url]
    is there but empty: the field is not present in the claim's sense
    (non-empty), yet the button does not point to the fallback but to the
    empty string. *)
Lemma empty_click_url_counterexample :
  result (_fetch_ad 42
            (world_at 1700000100 (answer_with 200 (Ok (JObj empty_click_payload))))
            recently_served) = Ok (Some empty_click_payload)
  ∧ truthy (dict_get empty_click_payload "click_url") = false
  ∧ ∃ sent body,
      effects (callback h_ads_cmd sample_update DEFAULT_TYPE
                 (world_at 1700000100 (answer_with 200 (Ok (JObj empty_click_payload))))
                 recently_served)
      = sent ++ [reply_text_call {| chat_id := 1; message_id := 2 |} body (Some HTML)
                   (Some [[{| btn_text := JStr "View"; btn_url := Some (JStr "");
                              btn_callback_data := None |}]])
                   (Some true)].
Proof.
  split; [reflexivity|]. split; [reflexivity|].
  eexists [_; _], _. reflexivity.
Qed.

(** C5 (amended): for every payload the fetcher returns, the first button
    of the message carries the payload's [button_name] and points to the
    value of its [click_url] whenever the payload has that key, empty or
    null values included, and to [https://t.me] only when the key is
    missing; a second button, made of [button_reward_name] and
    [reward_url], is there if and only if both fields are present and
    non-empty (truthy). *)
Theorem ad_buttons (h : HandlerName) (u : Update) (c : Context)
    (w : World) (g : Globals) (d : gmap string json) (t : Message) :
  is_ad_request h u →
  reaches_check h u w →
  target_of h u = Some t →
  result (_cooldown_ok (id (effective_user u)) w g) = Ok true →
  result (_fetch_ad (id (effective_user u)) w
            (globals (_cooldown_ok (id (effective_user u)) w g))) = Ok (Some d) →
  ∃ sent m primary rest,
    effects (callback h u c w g) = sent ++ [m]
    ∧ markup_of m = Some ([primary] :: rest)
    ∧ d !! "button_name" = Some (btn_text primary)
    ∧ (∀ v, d !! "click_url" = Some v → btn_url primary = Some v)
    ∧ (d !! "click_url" = None → btn_url primary = Some (JStr "https://t.me"))
    ∧ (rest ≠ [] ↔
         (∃ v, d !! "button_reward_name" = Some v ∧ truthy v = true)
         ∧ (∃ v, d !! "reward_url" = Some v ∧ truthy v = true))
    ∧ (rest ≠ [] →
       ∃ reward, rest = [[reward]]
                 ∧ d !! "button_reward_name" = Some (btn_text reward)
                 ∧ d !! "reward_url" = btn_url reward).
Proof.
  intros Hreq Hack Ht Hok Hf.
  destruct (ad_request_trace h u c w g t Hreq Hack Ht) as (_ & _ & Hserved).
  rewrite (Hserved Hok d Hf). apply fetch_result_served in Hf.
  apply served_Some in Hf as (_ & _ & _ & _ & Hname).
  apply truthy_get_present in Hname.
  eexists (ack_of h u ++ time_time_call :: effects _), (ad_message t d), _, _.
  split; [rewrite <- app_assoc; reflexivity|].
  split; [unfold ad_message; destruct (truthy (dict_get d "image_url")); reflexivity|].
  split; [exact Hname|]. simpl.
  split; [intros v Hv; unfold dict_get_default; rewrite Hv; reflexivity|].
  split; [intros Hv; unfold dict_get_default; rewrite Hv; reflexivity|].
  rewrite <- !truthy_get_iff.
  destruct (truthy (dict_get d "button_reward_name")) eqn:Hr1;
    destruct (truthy (dict_get d "reward_url")) eqn:Hr2; simpl;
    (split;
       [split; [intros Hne; try (exfalso; apply Hne; reflexivity); auto
               | intros [? ?]; congruence] | ]);
    try (intros Hne; contradiction).
  intros _. eexists. split; [reflexivity|]. simpl.
  split; apply truthy_get_present; assumption.
Qed.

Lemma ad_buttons_witness :
  is_ad_request h_button_cb sample_update
  ∧ ∃ sent m primary rest,
      effects (callback h_button_cb sample_update DEFAULT_TYPE
                 serving_world recently_served) = sent ++ [m]
      ∧ markup_of m = Some ([primary] :: rest)
      ∧ rewarded_payload !! "button_name" = Some (btn_text primary)
      ∧ btn_url primary = Some (JStr "https://t.me")
      ∧ rest ≠ [].
Proof.
  assert (Hreq : is_ad_request h_button_cb sample_update)
    by (right; split; reflexivity).
  split; [exact Hreq|].
  destruct (ad_buttons h_button_cb sample_update DEFAULT_TYPE serving_world
              recently_served rewarded_payload {| chat_id := 1; message_id := 3 |}
              Hreq eq_refl eq_refl eq_refl eq_refl)
    as (sent & m & primary & rest & He & Hm & Hn & _ & Hfallback & Hrest & _).
  exists sent, m, primary, rest.
  split; [exact He|]. split; [exact Hm|]. split; [exact Hn|].
  split; [apply Hfallback; reflexivity|].
  apply Hrest. split; eexists; split; reflexivity.
Defined.

(** C6: for every payload the fetcher returns, the body of the message is
    the payload's [text_html] when that is present (truthy) and the text
    "Sponsored" otherwise; the message is a photo, with the image as photo
    and the body as caption, exactly when [image_url] is present, and a text
    message otherwise; both forms are HTML-formatted and ask for content
    protection.  The message goes to the message the update carries. *)
Theorem ad_body (h : HandlerName) (u : Update) (c : Context)
    (w : World) (g : Globals) (d : gmap string json) (t : Message) :
  is_ad_request h u →
  reaches_check h u w →
  target_of h u = Some t →
  result (_cooldown_ok (id (effective_user u)) w g) = Ok true →
  result (_fetch_ad (id (effective_user u)) w
            (globals (_cooldown_ok (id (effective_user u)) w g))) = Ok (Some d) →
  ∃ sent m markup body,
    effects (callback h u c w g) = sent ++ [m]
    ∧ (truthy (dict_get d "text_html") = true → body = dict_get d "text_html")
    ∧ (truthy (dict_get d "text_html") = false → body = JStr "Sponsored")
    ∧ (truthy (dict_get d "image_url") = true →
       m = reply_photo_call t (dict_get d "image_url") body
             (Some HTML) (Some markup) (Some true))
    ∧ (truthy (dict_get d "image_url") = false →
       m = reply_text_call t body (Some HTML) (Some markup) (Some true)).
Proof.
  intros Hreq Hack Ht Hok Hf.
  destruct (ad_request_trace h u c w g t Hreq Hack Ht) as (_ & _ & Hserved).
  rewrite (Hserved Hok d Hf).
  exists (ack_of h u ++ time_time_call :: effects
            (_fetch_ad (id (effective_user u)) w
               (globals (_cooldown_ok (id (effective_user u)) w g)))),
    (ad_message t d), (ad_markup d),
    (py_or (dict_get d "text_html") (JStr "Sponsored")).
  split; [rewrite <- app_assoc; reflexivity|].
  unfold ad_message, py_or.
  destruct (truthy (dict_get d "text_html"));
    destruct (truthy (dict_get d "image_url"));
    repeat split; intros; (reflexivity || discriminate).
Qed.

Lemma ad_body_witness :
  is_ad_request h_ads_cmd sample_update
  ∧ ∃ sent markup,
      effects (callback h_ads_cmd sample_update DEFAULT_TYPE
                 serving_world recently_served)
      = sent ++ [reply_text_call {| chat_id := 1; message_id := 2 |} (JStr "Sponsored")
                   (Some HTML) (Some markup) (Some true)].
Proof.
  assert (Hreq : is_ad_request h_ads_cmd sample_update) by (left; reflexivity).
  split; [exact Hreq|].
  destruct (ad_body h_ads_cmd sample_update DEFAULT_TYPE serving_world
              recently_served rewarded_payload {| chat_id := 1; message_id := 2 |}
              Hreq I eq_refl eq_refl eq_refl)
    as (sent & m & markup & body & He & _ & Hb & _ & Hm).
  exists sent, markup. rewrite He, (Hm eq_refl), (Hb eq_refl). reflexivity.
Defined.

(** ** Claims about start-up *)

Lemma isdigit_empty digit : isdigit digit "" = false.
Proof. reflexivity. Qed.

Lemma module_body_run w :
  module_body w unloaded =
    let token := environ w !! "7016999277:AAEa5b_-_AxuhXp1U6JeP_eO822ORHHc0L4" in
    let block := environ w !! "int-14249" in
    let read := {| BOT_TOKEN := token; BLOCK_ID := block; _last_ad_at := ∅ |} in
    if negb (truthy_opt_str token) then
      (Raise (RuntimeError "Missing BOT_TOKEN env var"), read, [])
    else if negb (truthy_opt_str block)
            || negb (from_option (isdigit (unicode_digit w)) false block) then
      (Raise (RuntimeError "BLOCK_ID must be numeric and set as env var"), read, [])
    else (Ok tt, read, startup_calls token).
Proof.
  cbv zeta.
  unfold module_body, main, getenv, get_BOT_TOKEN, set_BOT_TOKEN, set_BLOCK_ID,
    set_last_ad_at, call_isdigit, log, emit, raise, mbind, mret, Py_bind, Py_ret,
    py_bind, py_ret, startup_calls.
  run_simpl.
  destruct (truthy_opt_str (environ w !! _)); simpl; [|reflexivity].
  destruct (environ w !! "int-14249") as [b|]; simpl; [|reflexivity].
  destruct (negb (b =? "")%string); simpl; [|reflexivity].
  destruct (isdigit (unicode_digit w) b); reflexivity.
Qed.

Lemma truthy_opt_str_true o : truthy_opt_str o = true ↔ ∃ s, o = Some s ∧ s ≠ "".
Proof.
  destruct o as [s|]; simpl.
  - destruct (String.eqb_spec s ""); simpl; split.
    + discriminate.
    + intros (s' & [= <-] & Hne). contradiction.
    + eauto.
    + reflexivity.
  - split; [discriminate|]. intros (s & [=] & _).
Qed.

Lemma truthy_opt_str_false o : truthy_opt_str o = false ↔ o = None ∨ o = Some "".
Proof.
  destruct o as [s|]; simpl.
  - destruct (String.eqb_spec s "") as [->|Hne]; simpl; split.
    + intros _. right. reflexivity.
    + reflexivity.
    + discriminate.
    + intros [H|H]; [discriminate|]. injection H as ->. contradiction.
  - split; auto.
Qed.

(** C4, as the specification words it, fails on a token that is set but
    empty: both values are present and the block identifier is all digits,
    yet start-up raises and makes no call at all. *)
Lemma startup_empty_token_counterexample :
  BOT_TOKEN (globals (module_body (startup_world (Some "") (Some "14249")) unloaded))
    = Some ""
  ∧ BLOCK_ID (globals (module_body (startup_world (Some "") (Some "14249")) unloaded))
    = Some "14249"
  ∧ isdigit unicode_digit_excerpt "14249" = true
  ∧ module_body (startup_world (Some "") (Some "14249")) unloaded
    = (Raise (RuntimeError "Missing BOT_TOKEN env var"),
       {| BOT_TOKEN := Some ""; BLOCK_ID := Some "14249"; _last_ad_at := ∅ |}, []).
Proof. repeat split; reflexivity. Qed.

(** C4 (amended): start-up raises a configuration error, before any handler
    is registered and before polling starts, whenever the bot token it read
    is absent or empty, or the block identifier it read is absent, empty or
    not all digits; when the token is non-empty and the block identifier is
    all digits, validation passes and the process configures logging,
    registers its four handlers and starts polling.  "All digits" is
    Python's [str.isdigit], over the digits of the Unicode table. *)
Theorem startup_validation (w : World) :
  let run := module_body w unloaded in
  let token := BOT_TOKEN (globals run) in
  let block := BLOCK_ID (globals run) in
  ((token = None ∨ token = Some ""
    ∨ block = None ∨ block = Some ""
    ∨ (∃ b, block = Some b ∧ isdigit (unicode_digit w) b = false)) →
   (∃ msg, result run = Raise (RuntimeError msg)) ∧ effects run = [])
  ∧ ((∃ t b, token = Some t ∧ t ≠ "" ∧ block = Some b
             ∧ isdigit (unicode_digit w) b = true) →
     result run = Ok tt ∧ effects run = startup_calls token).
Proof.
  cbv zeta. rewrite module_body_run. cbv zeta.
  destruct (truthy_opt_str (environ w !! "7016999277:AAEa5b_-_AxuhXp1U6JeP_eO822ORHHc0L4"))
    eqn:Ht; cbn [negb].
  2: { run_simpl. split; [eauto|]. apply truthy_opt_str_false in Ht.
       intros (t & b & Hs & Hne & _).
       destruct Ht as [Ht|Ht]; rewrite Ht in Hs; [discriminate|].
       injection Hs as <-. contradiction. }
  apply truthy_opt_str_true in Ht as (t & Hts & Hne).
  destruct (truthy_opt_str (environ w !! "int-14249")) eqn:Hb; cbn [negb orb].
  2: { run_simpl. split; [eauto|]. apply truthy_opt_str_false in Hb.
       intros (t' & b & _ & _ & Hs & Hd).
       destruct Hb as [Hb|Hb]; rewrite Hb in Hs; [discriminate|].
       injection Hs as <-. rewrite isdigit_empty in Hd. discriminate. }
  apply truthy_opt_str_true in Hb as (b & Hbs & Hbne).
  rewrite Hbs. cbn [from_option].
  destruct (isdigit (unicode_digit w) b) eqn:Hd; cbn [negb]; run_simpl.
  - split; [|auto]. rewrite Hts.
    intros [H|[H|[H|[H|(b' & H & Hd')]]]]; try discriminate.
    + injection H as ->. contradiction.
    + injection H as ->. contradiction.
    + injection H as <-. congruence.
  - split; [eauto|]. intros (t' & b' & _ & _ & [= <-] & Hd'). congruence.
Qed.

Lemma startup_validation_witness :
  result (module_body (startup_world (Some "123456:ABC") (Some "14249")) unloaded) = Ok tt
  ∧ effects (module_body (startup_world (Some "123456:ABC") (Some "14249")) unloaded)
    = startup_calls (Some "123456:ABC")
  ∧ result (module_body (startup_world (Some "123456:ABC") (Some "١٢٣")) unloaded) = Ok tt
  ∧ effects (module_body (startup_world (Some "123456:ABC") (Some "int-14249")) unloaded)
    = [].
Proof.
  destruct (startup_validation (startup_world (Some "123456:ABC") (Some "14249")))
    as [_ Hpass].
  destruct (startup_validation (startup_world (Some "123456:ABC") (Some "١٢٣")))
    as [_ Hpass'].
  destruct (startup_validation (startup_world (Some "123456:ABC") (Some "int-14249")))
    as [Hfail _].
  split; [|split; [|split]].
  - apply Hpass. exists "123456:ABC", "14249". repeat split; (reflexivity || discriminate).
  - apply Hpass. exists "123456:ABC", "14249". repeat split; (reflexivity || discriminate).
  - apply Hpass'. exists "123456:ABC", "١٢٣". repeat split; (reflexivity || discriminate).
  - apply Hfail. do 4 right. exists "int-14249". split; reflexivity.
Defined.

(** The two values are read from the variables named by the string
    literals of the source, not from [BOT_TOKEN] and [BLOCK_ID]: a process
    environment that sets only the latter two does not start. *)
Remark startup_reads_literal_names :
  result (module_body
            {| environ := <["BOT_TOKEN" := "123456:ABC"]> (<["BLOCK_ID" := "123456"]> ∅);
               time_time := 1700000000;
               requests_get := λ _ _, Raise (Timeout "read timed out");
               unicode_digit := unicode_digit_excerpt;
               telegram := λ _, Ok tt |}
            unloaded)
  = Raise (RuntimeError "Missing BOT_TOKEN env var").
Proof. reflexivity. Qed.

(** * Further properties of the module *)

(** ** What a handler leaves behind *)

Lemma start_run u c w g :
  ∃ body b,
    btn_url b = None
    ∧ btn_callback_data b = Some "show_ads"
    ∧ start u c w g =
        let o := reply_outcome w (message u) "reply_text"
                   (λ m, reply_text_call m body None (Some [[b]]) None) in
        (o.1, g, o.2).
Proof.
  eexists _, _. split; [|split]; [| |unfold start; apply reply_text_run]; reflexivity.
Qed.

Lemma help_cmd_run u c w g :
  ∃ body,
    help_cmd u c w g =
      let o := reply_outcome w (message u) "reply_text"
                 (λ m, reply_text_call m body None None None) in
      (o.1, g, o.2).
Proof. eexists. unfold help_cmd. apply reply_text_run. Qed.

Lemma callback_globals h u c w g :
  globals (callback h u c w g) = g
  ∨ globals (callback h u c w g)
    = globals (_cooldown_ok (id (effective_user u)) w g).
Proof.
  destruct h; cbn [callback].
  - left. destruct (start_run u c w g) as (body & b & _ & _ & ->). reflexivity.
  - left. destruct (help_cmd_run u c w g) as (body & ->). reflexivity.
  - right. unfold ads_cmd. apply show_ads_globals.
  - rewrite button_cb_run.
    destruct (telegram w (answer_call (callback_query u))) as [[]|e].
    + case_bool_decide.
      * right. apply show_ads_globals.
      * left. reflexivity.
    + left. reflexivity.
Qed.

(** X1: whatever handler runs, on whatever update and however the run
    ends, the only global it can change is the cooldown timestamp of the
    user who sent the update: the token and the block identifier stay,
    every other user's timestamp stays, and no record is ever removed. *)
Theorem handler_frame (h : HandlerName) (u : Update) (c : Context)
    (w : World) (g : Globals) :
  let g' := globals (callback h u c w g) in
  BOT_TOKEN g' = BOT_TOKEN g
  ∧ BLOCK_ID g' = BLOCK_ID g
  ∧ (∀ k, k ≠ id (effective_user u) → _last_ad_at g' !! k = _last_ad_at g !! k)
  ∧ (∀ k, is_Some (_last_ad_at g !! k) → is_Some (_last_ad_at g' !! k)).
Proof.
  cbv zeta.
  destruct (callback_globals h u c w g) as [-> | ->]; [auto|].
  rewrite cooldown_run. destruct (Qle_bool _ _); run_simpl; [|auto].
  split; [reflexivity|]. split; [reflexivity|]. split.
  - intros k Hk. apply lookup_insert_ne. congruence.
  - intros k Hk.
    destruct (decide (id (effective_user u) = k)) as [->|Hne].
    + rewrite lookup_insert_eq. eauto.
    + rewrite lookup_insert_ne by exact Hne. exact Hk.
Qed.

(** ** The rate limit over a whole run *)

Lemma cooldown_other_user user_id uid w g :
  uid ≠ user_id →
  last_seen user_id (globals (_cooldown_ok uid w g)) = last_seen user_id g.
Proof.
  intros Hne. rewrite cooldown_run. unfold last_seen.
  destruct (Qle_bool _ _); run_simpl; [|reflexivity].
  rewrite lookup_insert_ne by exact Hne. reflexivity.
Qed.

Lemma granted_cons user_id uid w reqs g :
  granted user_id ((uid, w) :: reqs) g =
    match result (_cooldown_ok uid w g) with
    | Ok true =>
        if bool_decide (uid = user_id)
        then time_time w :: granted user_id reqs (globals (_cooldown_ok uid w g))
        else granted user_id reqs (globals (_cooldown_ok uid w g))
    | _ => granted user_id reqs (globals (_cooldown_ok uid w g))
    end.
Proof. reflexivity. Qed.

(** X3: the anti-spam guarantee.  Over any sequence of cooldown checks, of
    any users in any order and with any clock readings, the readings at
    which one user is allowed are spaced by at least 8 seconds, the first
    of them counted from the timestamp the user had at the start (0 when
    there was none). *)
Theorem granted_requests_spaced (user_id : Z) (reqs : list (Z * World)) (g : Globals) :
  spaced (last_seen user_id g) (granted user_id reqs g).
Proof.
  revert g. induction reqs as [|[uid w] reqs IH]; intros g; [exact I|].
  rewrite granted_cons.
  destruct (cooldown_total uid w g) as [H|H]; rewrite H.
  - case_bool_decide as Heq.
    + subst uid. cbn [spaced]. split.
      * apply cooldown_allowed_iff, H.
      * rewrite <- (last_seen_recorded _ _ _ (cooldown_records _ _ _ H)) at 1.
        apply IH.
    + rewrite <- (cooldown_other_user user_id uid w g Heq). apply IH.
  - rewrite (cooldown_denied_globals _ _ _ H). apply IH.
Qed.

(** ** More on the ad fetcher *)

Ltac fetch_unfold :=
  unfold _fetch_ad, try_except, call_requests_get, get_BLOCK_ID, lift_res, log,
    emit, raise, mbind, mret, Py_bind, Py_ret, py_bind, py_ret, fetch_url;
  run_simpl.

(** The fetcher reads [BLOCK_ID] and nothing else of the globals. *)
Lemma fetch_reads_block_id tgid w g :
  _fetch_ad tgid w g =
    let r := _fetch_ad tgid w
               {| BOT_TOKEN := None; BLOCK_ID := BLOCK_ID g; _last_ad_at := ∅ |} in
    (result r, g, effects r).
Proof.
  fetch_unfold.
  destruct (requests_get w _ 10) as [resp|e]; simpl; [|reflexivity].
  destruct (status_code resp =? 200); simpl; [|reflexivity].
  destruct (resp_json resp) as [[| | | | | |d]|e]; simpl; try reflexivity.
  destruct (truthy (dict_get d "button_name")); reflexivity.
Qed.

(** X6: the fetch is independent of the rate limiter.  Its result and the
    calls it makes depend on the block identifier, the user id and the
    server only, not on the token or on anybody's cooldown timestamp, and it
    hands the globals back unchanged. *)
Theorem fetch_ignores_cooldown (tgid : Z) (w : World) (g1 g2 : Globals) :
  BLOCK_ID g1 = BLOCK_ID g2 →
  result (_fetch_ad tgid w g1) = result (_fetch_ad tgid w g2)
  ∧ effects (_fetch_ad tgid w g1) = effects (_fetch_ad tgid w g2)
  ∧ globals (_fetch_ad tgid w g1) = g1
  ∧ globals (_fetch_ad tgid w g2) = g2.
Proof.
  intros Hb.
  rewrite (fetch_reads_block_id tgid w g1), (fetch_reads_block_id tgid w g2), Hb.
  cbv zeta. auto.
Qed.

Lemma fetch_ignores_cooldown_witness :
  BLOCK_ID configured = BLOCK_ID recently_served
  ∧ effects (_fetch_ad 42 serving_world configured)
    = effects (_fetch_ad 42 serving_world recently_served).
Proof.
  split; [reflexivity|].
  apply (fetch_ignores_cooldown 42 serving_world configured recently_served).
  reflexivity.
Defined.

(** X7: every fetch that comes back empty-handed says why, once.  The trace
    of a fetch is the request followed by at most one log record: none when
    a payload is returned, exactly one when absent is returned; and the
    record is a warning exactly when the server answered with a status other
    than 200. *)
Theorem fetch_logs_each_failure (tgid : Z) (w : World) (g : Globals) :
  let r := _fetch_ad tgid w g in
  effects r = requests_get_call (fetch_url tgid g) 10 :: List.filter is_log (effects r)
  ∧ length (List.filter is_log (effects r))
    = match result r with Ok (Some _) => 0%nat | _ => 1%nat end
  ∧ (existsb is_warning (effects r) = true
     ↔ ∃ resp, requests_get w (fetch_url tgid g) 10 = Ok resp
               ∧ status_code resp ≠ 200).
Proof.
  cbv zeta. fetch_unfold.
  destruct (requests_get w _ 10) as [resp|e] eqn:Hget; simpl.
  2: { repeat split; try discriminate. intros (resp & [=] & _). }
  destruct (Z.eqb_spec (status_code resp) 200) as [Hs|Hs]; simpl.
  2: { repeat split; eauto. }
  assert (Hno : ¬ ∃ resp0, Ok resp = Ok resp0 ∧ status_code resp0 ≠ 200).
  { intros (resp0 & [= <-] & Hne). contradiction. }
  destruct (resp_json resp) as [[| | | | | |d]|e]; simpl;
    try destruct (truthy (dict_get d "button_name")); simpl;
    repeat split; try discriminate; try (intros H; contradiction).
Qed.

Lemma string_length_app (s r : string) :
  String.length (s +:+ r) = (String.length s + String.length r)%nat.
Proof. induction s as [|a s IH]; simpl; [reflexivity|]. rewrite IH. reflexivity. Qed.

Lemma string_app_cancel_r (s1 s2 r : string) : s1 +:+ r = s2 +:+ r → s1 = s2.
Proof.
  revert s2. induction s1 as [|a s1 IH]; intros [|b s2] H; simpl in H.
  - reflexivity.
  - apply (f_equal String.length) in H.
    rewrite ?string_length_app in H. simpl in H.
    rewrite ?string_length_app in H. lia.
  - apply (f_equal String.length) in H.
    rewrite ?string_length_app in H. simpl in H.
    rewrite ?string_length_app in H. lia.
  - injection H as -> H. f_equal. apply IH, H.
Qed.

(** X9: users are never confused at the ad network.  With the same block
    identifier, the request URLs built for two user ids are equal only if
    the ids are. *)
Theorem fetch_url_identifies_user (a b : Z) (g : Globals) :
  fetch_url a g = fetch_url b g → a = b.
Proof.
  unfold fetch_url. intros H.
  apply (inj (String.append AD_API)) in H.
  apply (inj (String.append "?tgid=")) in H.
  apply string_app_cancel_r in H.
  apply (inj pretty) in H. exact H.
Qed.

Lemma fetch_url_identifies_user_witness :
  fetch_url 42 configured = fetch_url (40 + 2) configured ∧ 42 = 40 + 2.
Proof.
  split; [reflexivity|].
  apply (fetch_url_identifies_user 42 (40 + 2) configured). reflexivity.
Defined.


(** ** What a handler sends, and how it can end *)

Lemma filter_logs_fetch logs :
  forallb is_log logs = true → List.filter is_fetch logs = [].
Proof.
  induction logs as [|l logs IH]; [reflexivity|]. simpl.
  intros [Hl Hlogs]%andb_prop. destruct l; try discriminate. simpl. auto.
Qed.

Lemma ad_message_is_reply target d : is_reply (ad_message target d) = true.
Proof. unfold ad_message. destruct (truthy _); reflexivity. Qed.

Lemma ad_message_not_fetch target d : is_fetch (ad_message target d) = false.
Proof. unfold ad_message. destruct (truthy _); reflexivity. Qed.

Lemma show_ads_ends_in_reply u c t w g :
  ∃ before, ends_in_reply w t (show_ads_common u c t w g) before.
Proof.
  destruct (cooldown_total (id (effective_user u)) w g) as [H|H].
  - destruct (fetch_effects (id (effective_user u)) w
                (globals (_cooldown_ok (id (effective_user u)) w g)))
      as (logs & Hfetch & Hlogs).
    exists (time_time_call :: effects
              (_fetch_ad (id (effective_user u)) w
                 (globals (_cooldown_ok (id (effective_user u)) w g)))).
    assert (Hnr : List.filter is_reply
                    (time_time_call :: effects
                       (_fetch_ad (id (effective_user u)) w
                          (globals (_cooldown_ok (id (effective_user u)) w g)))) = []).
    { cbn [List.filter is_reply]. apply fetch_no_reply. }
    assert (Hnf : (length (List.filter is_fetch
                     (time_time_call :: effects
                        (_fetch_ad (id (effective_user u)) w
                           (globals (_cooldown_ok (id (effective_user u)) w g))))) ≤ 1)%nat).
    { rewrite Hfetch. cbn [List.filter is_fetch].
      rewrite (filter_logs_fetch _ Hlogs). simpl. lia. }
    destruct (served (requests_get w
                (fetch_url (id (effective_user u))
                   (globals (_cooldown_ok (id (effective_user u)) w g))) 10))
      as [d|] eqn:Hs.
    + rewrite (show_ads_served _ _ _ _ _ _ H Hs). cbv zeta.
      exists (ad_attribute d), (λ m, ad_message m d).
      split; [intros m; split; [apply ad_message_is_reply|apply ad_message_not_fetch]|].
      split; [exact Hnr|]. split; [exact Hnf|]. split; reflexivity.
    + rewrite (show_ads_no_fill _ _ _ _ _ H Hs). cbv zeta.
      exists "reply_text", no_ad_call.
      split; [intros m; split; reflexivity|].
      split; [exact Hnr|]. split; [exact Hnf|]. split; reflexivity.
  - rewrite (show_ads_denied _ _ _ _ _ H). cbv zeta.
    exists [time_time_call], "reply_text", wait_call.
    split; [intros m; split; reflexivity|].
    split; [reflexivity|]. split; [simpl; lia|]. split; reflexivity.
Qed.

(** Every run of a handler is a tap that stops at the acknowledgement, or
    ends in the attempt to reply. *)
Lemma callback_cases h u c w g :
  (h = h_button_cb
   ∧ effects (callback h u c w g) = [answer_call (callback_query u)]
   ∧ (telegram w (answer_call (callback_query u)) = Ok tt
      ∧ data (callback_query u) ≠ Some "show_ads"
      ∧ result (callback h u c w g) = Ok tt
      ∨ ∃ e, telegram w (answer_call (callback_query u)) = Raise e
             ∧ result (callback h u c w g) = Raise e))
  ∨ (reaches_check h u w
     ∧ (h = h_button_cb → data (callback_query u) = Some "show_ads")
     ∧ ∃ before, ends_in_reply w (target_of h u) (callback h u c w g) before
                 ∧ (h = h_start ∨ h = h_help_cmd → before = [])).
Proof.
  destruct h; cbn [callback].
  - right. split; [exact I|]. split; [discriminate|]. exists [].
    split; [|reflexivity].
    destruct (start_run u c w g) as (body & b & _ & _ & ->). cbv zeta.
    exists "reply_text", (λ m, reply_text_call m body None (Some [[b]]) None).
    split; [intros m; split; reflexivity|].
    split; [reflexivity|]. split; [simpl; lia|]. split; reflexivity.
  - right. split; [exact I|]. split; [discriminate|]. exists [].
    split; [|reflexivity].
    destruct (help_cmd_run u c w g) as (body & ->). cbv zeta.
    exists "reply_text", (λ m, reply_text_call m body None None None).
    split; [intros m; split; reflexivity|].
    split; [reflexivity|]. split; [simpl; lia|]. split; reflexivity.
  - right. split; [exact I|]. split; [discriminate|]. unfold ads_cmd.
    destruct (show_ads_ends_in_reply u c (message u) w g) as (before & Hshape).
    exists before. split; [exact Hshape|]. intros [[=]|[=]].
  - rewrite button_cb_run.
    destruct (telegram w (answer_call (callback_query u))) as [[]|e] eqn:Ha.
    + case_bool_decide as Hd.
      * right. split; [exact Ha|]. split; [intros _; exact Hd|].
        destruct (show_ads_ends_in_reply u c (query_message (callback_query u)) w g)
          as (before & attribute & call & Hcall & Hnr & Hnf & Hres & Heff).
        exists (answer_call (callback_query u) :: before).
        split; [|intros [[=]|[=]]].
        exists attribute, call. cbv zeta. run_proj.
        split; [exact Hcall|]. split; [exact Hnr|]. split; [exact Hnf|].
        split; [exact Hres|]. rewrite Heff. reflexivity.
      * left. split; [reflexivity|]. split; [reflexivity|]. left. auto.
    + left. split; [reflexivity|]. split; [reflexivity|]. right. eauto.
Qed.

(** X2: a handler can fail in two ways only.  Every run returns normally,
    or raises [AttributeError] because the update has no message to reply
    to, or raises what Telegram answered to the last call it made.  Nothing
    the fetch raises and no failed subscript of the payload ever comes out
    of a handler. *)
Theorem handler_exceptions (h : HandlerName) (u : Update) (c : Context)
    (w : World) (g : Globals) :
  let run := callback h u c w g in
  result run = Ok tt
  ∨ (target_of h u = None ∧ ∃ attribute, result run = Raise (AttributeError attribute))
  ∨ (∃ call e, last (effects run) = Some call ∧ is_telegram call = true
               ∧ telegram w call = Raise e ∧ result run = Raise e).
Proof.
  cbv zeta.
  destruct (callback_cases h u c w g)
    as [(_ & Heff & [(_ & _ & Hres) | (e & Ha & Hres)])
       | (_ & _ & before & (attribute & call & Hcall & _ & _ & Hres & Heff) & _)].
  - left. exact Hres.
  - right. right. exists (answer_call (callback_query u)), e.
    rewrite Heff. auto.
  - rewrite Hres, Heff. unfold reply_outcome.
    destruct (target_of h u) as [m|]; cbn [fst snd].
    + destruct (telegram w (call m)) as [[]|e] eqn:Ht; [left; reflexivity|].
      right. right. exists (call m), e. rewrite last_snoc.
      split; [reflexivity|]. split; [|auto].
      destruct (Hcall m) as [Hr _]. destruct (call m); try discriminate; reflexivity.
    + right. left. eauto.
Qed.

Lemma replies_of_trace before (o : list Effect) :
  List.filter is_reply before = [] →
  List.filter is_reply (before ++ o) = List.filter is_reply o.
Proof. intros H. rewrite List.filter_app, H. reflexivity. Qed.

(** X4: one invocation, at most one reply, and it is the last call.  The
    trace of any handler run holds no reply or exactly one, which is then
    its last call, and at most one HTTP request; [start] and [help_cmd]
    issue no request and do not read the clock.  There is no reply when the
    update has no message to reply to, and exactly one when it has one and
    the handler is a command or a ["show_ads"] tap whose acknowledgement
    Telegram accepted. *)
Theorem handler_reply_count (h : HandlerName) (u : Update) (c : Context)
    (w : World) (g : Globals) :
  let t := effects (callback h u c w g) in
  (List.filter is_reply t = []
   ∨ ∃ r, List.filter is_reply t = [r] ∧ last t = Some r)
  ∧ (length (List.filter is_fetch t) ≤ 1)%nat
  ∧ (h = h_start ∨ h = h_help_cmd →
     List.filter is_fetch t = [] ∧ time_time_call ∉ t)
  ∧ (target_of h u = None → List.filter is_reply t = [])
  ∧ (∀ m, target_of h u = Some m →
       reaches_check h u w →
       (h = h_button_cb → data (callback_query u) = Some "show_ads") →
       ∃ r, List.filter is_reply t = [r] ∧ last t = Some r).
Proof.
  cbv zeta.
  destruct (callback_cases h u c w g)
    as [(-> & Heff & Hquiet)
       | (Hack & Hdata & before & (attribute & call & Hcall & Hnr & Hnf & _ & Heff)
          & Hcmd)].
  - rewrite Heff. split; [left; reflexivity|]. split; [simpl; lia|].
    split; [intros [[=]|[=]]|]. split; [reflexivity|].
    intros m Hm Hack Hdata. exfalso. simpl in Hack.
    destruct Hquiet as [(_ & Hd & _) | (e & Ha & _)];
      [apply Hd, Hdata; reflexivity | congruence].
  - rewrite Heff, (replies_of_trace _ _ Hnr). unfold reply_outcome.
    destruct (target_of h u) as [m|]; cbn [fst snd].
    + destruct (Hcall m) as [Hr Hf].
      assert (Hone : List.filter is_reply [call m] = [call m])
        by (cbn [List.filter]; rewrite Hr; reflexivity).
      rewrite Hone, last_snoc.
      split; [right; eauto|]. split.
      { rewrite List.filter_app. cbn [List.filter]. rewrite Hf, app_nil_r. exact Hnf. }
      split.
      { intros Hh. rewrite (Hcmd Hh). cbn [app List.filter]. rewrite Hf.
        split; [reflexivity|]. intros Hin. apply list_elem_of_singleton in Hin.
        rewrite <- Hin in Hr. discriminate. }
      split; [discriminate|]. intros m' _ _ _. eauto.
    + rewrite app_nil_r. split; [left; reflexivity|]. split; [exact Hnf|].
      split.
      { intros Hh. rewrite (Hcmd Hh). split; [reflexivity|]. apply not_elem_of_nil. }
      split; [reflexivity|]. discriminate.
Qed.

(** X5: the button of the welcome message is wired to the ad sequence.
    [start] builds a keyboard of one button and replies with it to the
    message of the update, unprotected and without touching the globals;
    when the update has no message it raises [AttributeError] and sends
    nothing.  A tap that carries that button's callback data, once its
    acknowledgement is accepted, runs [show_ads_common] on the tapped
    message. *)
Theorem start_button_round_trip (u : Update) (c : Context) (w : World) (g : Globals) :
  ∃ body b,
    btn_url b = None
    ∧ (∀ m, message u = Some m →
         start u c w g
         = (telegram w (reply_text_call m body None (Some [[b]]) None), g,
            [reply_text_call m body None (Some [[b]]) None]))
    ∧ (message u = None →
       start u c w g = (Raise (AttributeError "reply_text"), g, []))
    ∧ ∀ u2 c2 w2 g2,
        data (callback_query u2) = btn_callback_data b →
        telegram w2 (answer_call (callback_query u2)) = Ok tt →
        effects (button_cb u2 c2 w2 g2)
        = answer_call (callback_query u2)
          :: effects (show_ads_common u2 c2 (query_message (callback_query u2)) w2 g2).
Proof.
  destruct (start_run u c w g) as (body & b & Hurl & Hdata & Hrun).
  exists body, b. split; [exact Hurl|]. rewrite Hrun. cbv zeta.
  split; [intros m ->; reflexivity|]. split; [intros ->; reflexivity|].
  intros u2 c2 w2 g2 Hd Hack. rewrite Hdata in Hd.
  rewrite button_cb_run, Hack, bool_decide_eq_true_2 by exact Hd. reflexivity.
Qed.

(** ** More on the log excerpt *)








(** ** More on the renderer *)

(** X10: nothing empty is put on the screen.  In every ad message the body
    is truthy (a non-empty string when it is a string), there is at least
    one button, and every button label is truthy. *)
Theorem ad_message_nonempty (h : HandlerName) (u : Update) (c : Context)
    (w : World) (g : Globals) (d : gmap string json) (t : Message) :
  is_ad_request h u →
  reaches_check h u w →
  target_of h u = Some t →
  result (_cooldown_ok (id (effective_user u)) w g) = Ok true →
  result (_fetch_ad (id (effective_user u)) w
            (globals (_cooldown_ok (id (effective_user u)) w g))) = Ok (Some d) →
  ∃ sent m body,
    effects (callback h u c w g) = sent ++ [m]
    ∧ body_of m = Some body
    ∧ truthy body = true
    ∧ labels_of m ≠ []
    ∧ Forall (λ l, truthy l = true) (labels_of m).
Proof.
  intros Hreq Hack Ht Hok Hf.
  destruct (ad_request_trace h u c w g t Hreq Hack Ht) as (_ & _ & Hserved).
  rewrite (Hserved Hok d Hf). apply fetch_result_served in Hf.
  apply served_Some in Hf as (_ & _ & _ & _ & Hname).
  exists (ack_of h u ++ time_time_call :: effects
            (_fetch_ad (id (effective_user u)) w
               (globals (_cooldown_ok (id (effective_user u)) w g)))),
    (ad_message t d),
    (py_or (dict_get d "text_html") (JStr "Sponsored")).
  split; [rewrite <- app_assoc; reflexivity|].
  assert (Hbody : truthy (py_or (dict_get d "text_html") (JStr "Sponsored")) = true).
  { unfold py_or. destruct (truthy (dict_get d "text_html")) eqn:Htx; [exact Htx|reflexivity]. }
  assert (Hlabels : labels_of (ad_message t d) = btn_text <$> concat (ad_markup d)).
  { unfold ad_message. destruct (truthy (dict_get d "image_url")); reflexivity. }
  split; [unfold ad_message; destruct (truthy (dict_get d "image_url")); reflexivity|].
  split; [exact Hbody|].
  rewrite Hlabels. unfold ad_markup.
  destruct (truthy (dict_get d "button_reward_name")) eqn:Hr1;
    destruct (truthy (dict_get d "reward_url")) eqn:Hr2; simpl;
    (split; [discriminate|]); repeat constructor; assumption.
Qed.

Lemma ad_message_nonempty_witness :
  is_ad_request h_ads_cmd sample_update
  ∧ ∃ sent m, effects (callback h_ads_cmd sample_update DEFAULT_TYPE
                         serving_world recently_served) = sent ++ [m]
              ∧ labels_of m ≠ [].
Proof.
  assert (Hreq : is_ad_request h_ads_cmd sample_update) by (left; reflexivity).
  split; [exact Hreq|].
  destruct (ad_message_nonempty h_ads_cmd sample_update DEFAULT_TYPE serving_world
              recently_served rewarded_payload {| chat_id := 1; message_id := 2 |}
              Hreq I eq_refl eq_refl eq_refl)
    as (sent & m & body & He & _ & _ & Hl & _).
  exists sent, m. split; [exact He|exact Hl].
Defined.

(** ** More on start-up *)

(** X11: a start-up that succeeds leaves a usable configuration behind: a
    non-empty token, a non-empty block identifier that [str.isdigit]
    accepts, and an empty cooldown map; so the URL of every later fetch ends
    in [&blockid=] followed by those digits, never by the text [None]. *)
Theorem startup_establishes_config (w : World) :
  result (module_body w unloaded) = Ok tt →
  ∃ t b,
    globals (module_body w unloaded)
    = {| BOT_TOKEN := Some t; BLOCK_ID := Some b; _last_ad_at := ∅ |}
    ∧ t ≠ "" ∧ b ≠ "" ∧ isdigit (unicode_digit w) b = true
    ∧ ∀ tgid, fetch_url tgid (globals (module_body w unloaded))
              = AD_API +:+ "?tgid=" +:+ pretty tgid +:+ "&blockid=" +:+ b.
Proof.
  rewrite module_body_run. cbv zeta.
  destruct (truthy_opt_str (environ w !! "7016999277:AAEa5b_-_AxuhXp1U6JeP_eO822ORHHc0L4"))
    eqn:Ht; cbn [negb]; [|discriminate].
  destruct (truthy_opt_str (environ w !! "int-14249")) eqn:Hb; cbn [negb orb];
    [|discriminate].
  apply truthy_opt_str_true in Ht as (t & Ht & Hne).
  apply truthy_opt_str_true in Hb as (b & Hb & Hbne).
  rewrite Ht, Hb. cbn [from_option].
  destruct (isdigit (unicode_digit w) b) eqn:Hd; cbn [negb]; [|discriminate].
  intros _. exists t, b. run_simpl. auto.
Qed.

Lemma startup_establishes_config_witness :
  ∃ t b,
    globals (module_body (startup_world (Some "123456:ABC") (Some "١٢٣")) unloaded)
    = {| BOT_TOKEN := Some t; BLOCK_ID := Some b; _last_ad_at := ∅ |}
    ∧ b = "١٢٣".
Proof.
  destruct (startup_establishes_config
              (startup_world (Some "123456:ABC") (Some "١٢٣")) eq_refl)
    as (t & b & Hg & _ & _ & _ & _).
  exists t, b. split; [exact Hg|]. vm_compute in Hg. congruence.
Defined.

(** X12: the two start-up errors are told apart and the token is checked
    first.  The run ends in one of three ways: normally, with "Missing
    BOT_TOKEN env var" exactly when the token read is absent or empty
    (whatever the block identifier is), or with "BLOCK_ID must be numeric and
    set as env var" exactly when the token is fine and the block identifier
    is absent or not accepted by [str.isdigit] (the empty string is not).  A
    failed start-up has made no call: logging is not even configured. *)
Theorem startup_error_messages (w : World) :
  let run := module_body w unloaded in
  let token := BOT_TOKEN (globals run) in
  let block := BLOCK_ID (globals run) in
  (result run = Raise (RuntimeError "Missing BOT_TOKEN env var")
   ↔ token = None ∨ token = Some "")
  ∧ (result run = Raise (RuntimeError "BLOCK_ID must be numeric and set as env var")
     ↔ (∃ t, token = Some t ∧ t ≠ "")
       ∧ (block = None ∨ ∃ b, block = Some b ∧ isdigit (unicode_digit w) b = false))
  ∧ (result run = Ok tt
     ∨ result run = Raise (RuntimeError "Missing BOT_TOKEN env var")
     ∨ result run = Raise (RuntimeError "BLOCK_ID must be numeric and set as env var"))
  ∧ (∀ e, result run = Raise e → effects run = []).
Proof.
  cbv zeta. rewrite module_body_run. cbv zeta.
  destruct (truthy_opt_str (environ w !! "7016999277:AAEa5b_-_AxuhXp1U6JeP_eO822ORHHc0L4"))
    eqn:Ht; cbn [negb].
  2: { run_simpl. apply truthy_opt_str_false in Ht.
       split; [tauto|]. split; [|auto].
       split; [discriminate|]. intros [(t & Hs & Hne) _].
       destruct Ht as [Ht|Ht]; rewrite Ht in Hs; [discriminate|].
       injection Hs as <-. contradiction. }
  pose proof Ht as Ht'. apply truthy_opt_str_true in Ht' as (t & Hts & Hne).
  assert (Hnot : ¬ (environ w !! "7016999277:AAEa5b_-_AxuhXp1U6JeP_eO822ORHHc0L4" = None
                    ∨ environ w !! "7016999277:AAEa5b_-_AxuhXp1U6JeP_eO822ORHHc0L4"
                      = Some "")).
  { rewrite Hts. intros [[=]|[= ->]]. contradiction. }
  destruct (truthy_opt_str (environ w !! "int-14249")) eqn:Hb; cbn [negb orb].
  - apply truthy_opt_str_true in Hb as (b & Hbs & Hbne). rewrite Hbs. cbn [from_option].
    destruct (isdigit (unicode_digit w) b) eqn:Hd; cbn [negb]; run_simpl.
    + split; [split; [discriminate|tauto]|]. split; [|split; [auto|discriminate]].
      split; [discriminate|].
      intros [_ [[=]|(b' & [= <-] & Hd')]]. congruence.
    + split; [split; [discriminate|tauto]|]. split; [|split; [auto|reflexivity]].
      split; [|reflexivity]. intros _. split; [eauto|]. right. eauto.
  - run_simpl. split; [split; [discriminate|tauto]|]. split; [|split; [auto|reflexivity]].
    split; [|reflexivity]. intros _. split; [eauto|].
    apply truthy_opt_str_false in Hb as [->| ->]; [left; reflexivity|].
    right. exists "". split; reflexivity.
Qed.

Lemma startup_config_empty_map w :
  result (module_body w unloaded) = Ok tt →
  _last_ad_at (globals (module_body w unloaded)) = ∅.
Proof.
  intros _. rewrite module_body_run. cbv zeta.
  destruct (negb _); [reflexivity|]. destruct (negb _ || negb _); reflexivity.
Qed.

Lemma callback_other_user h u c w g k :
  k ≠ id (effective_user u) →
  _last_ad_at (globals (callback h u c w g)) !! k = _last_ad_at g !! k.
Proof.
  intros Hk. destruct (callback_globals h u c w g) as [-> | ->]; [reflexivity|].
  rewrite cooldown_run. destruct (Qle_bool _ _); run_simpl; [|reflexivity].
  apply lookup_insert_ne. congruence.
Qed.

Lemma deliver_other_users events g k :
  Forall (λ ev, id (effective_user (delivered ev)) ≠ k) events →
  _last_ad_at (deliver events g) !! k = _last_ad_at g !! k.
Proof.
  revert g. induction events as [|ev events IH]; intros g Hall; [reflexivity|].
  inversion Hall as [|? ? Hev Hrest]; subst. cbn [deliver].
  rewrite (IH _ Hrest). apply callback_other_user. congruence.
Qed.

Lemma allowed_request_fetches u c t w g :
  result (_cooldown_ok (id (effective_user u)) w g) = Ok true →
  List.filter is_fetch (effects (show_ads_common u c t w g))
  = [requests_get_call (fetch_url (id (effective_user u)) g) 10].
Proof.
  intros H.
  assert (Hurl : fetch_url (id (effective_user u))
                   (globals (_cooldown_ok (id (effective_user u)) w g))
                 = fetch_url (id (effective_user u)) g).
  { rewrite (cooldown_allowed_globals _ _ _ H). reflexivity. }
  destruct (fetch_effects (id (effective_user u)) w
              (globals (_cooldown_ok (id (effective_user u)) w g)))
    as (logs & Hfetch & Hlogs).
  rewrite Hurl in Hfetch.
  destruct (served (requests_get w
              (fetch_url (id (effective_user u))
                 (globals (_cooldown_ok (id (effective_user u)) w g))) 10))
    as [d|] eqn:Hs.
  - rewrite (show_ads_served _ _ _ _ _ _ H Hs), Hfetch. cbv zeta. run_proj.
    cbn [List.filter is_fetch app].
    rewrite List.filter_app, (filter_logs_fetch _ Hlogs).
    destruct t; cbn [reply_outcome snd List.filter app];
      rewrite ?ad_message_not_fetch; reflexivity.
  - rewrite (show_ads_no_fill _ _ _ _ _ H Hs), Hfetch. cbv zeta. run_proj.
    cbn [List.filter is_fetch app].
    rewrite List.filter_app, (filter_logs_fetch _ Hlogs).
    destruct t; reflexivity.
Qed.

(** X13: nobody is locked out after a restart.  Once start-up has
    succeeded, and whatever other users have done since, the first ad
    request of a user that reaches the cooldown check, at any clock reading
    at least 8 seconds after the epoch, passes the check and issues the one
    request to the ad network. *)
Theorem first_request_after_startup (w : World) (events : list Delivery)
    (h : HandlerName) (u : Update) (c : Context) (w1 : World) :
  result (module_body w unloaded) = Ok tt →
  Forall (λ ev, id (effective_user (delivered ev)) ≠ id (effective_user u)) events →
  is_ad_request h u →
  reaches_check h u w1 →
  (COOLDOWN_SECONDS <= time_time w1)%Q →
  let g := deliver events (globals (module_body w unloaded)) in
  result (_cooldown_ok (id (effective_user u)) w1 g) = Ok true
  ∧ List.filter is_fetch (effects (callback h u c w1 g))
    = [requests_get_call (fetch_url (id (effective_user u)) g) 10].
Proof.
  intros Hstart Hothers Hreq Hack Hnow. cbv zeta.
  set (g := deliver events (globals (module_body w unloaded))).
  assert (Hnone : _last_ad_at g !! id (effective_user u) = None).
  { subst g. rewrite (deliver_other_users _ _ _ Hothers),
      (startup_config_empty_map w Hstart). apply lookup_empty. }
  assert (Hok : result (_cooldown_ok (id (effective_user u)) w1 g) = Ok true).
  { apply cooldown_allowed_iff. rewrite (last_seen_fresh _ _ Hnone).
    unfold Qminus. simpl Qopp. rewrite Qplus_0_r. exact Hnow. }
  split; [exact Hok|].
  rewrite (ad_request_run _ _ _ _ _ Hreq Hack). cbv zeta. run_proj.
  rewrite List.filter_app, (allowed_request_fetches _ _ _ _ _ Hok).
  destruct h; reflexivity.
Qed.

Lemma first_request_after_startup_witness :
  is_ad_request h_ads_cmd sample_update
  ∧ List.filter is_fetch
      (effects (callback h_ads_cmd sample_update DEFAULT_TYPE serving_world
                  (deliver
                     [{| to_handler := h_ads_cmd;
                         delivered := {| effective_user := {| id := 7 |};
                                         message := None;
                                         callback_query := callback_query edited_ads |};
                         with_context := DEFAULT_TYPE;
                         in_world := serving_world |}]
                     (globals (module_body
                                 (startup_world (Some "123456:ABC") (Some "14249"))
                                 unloaded)))))
    = [requests_get_call "https://api.adsgram.ai/advbot?tgid=42&blockid=14249" 10].
Proof.
  assert (Hreq : is_ad_request h_ads_cmd sample_update) by (left; reflexivity).
  split; [exact Hreq|].
  apply (first_request_after_startup
           (startup_world (Some "123456:ABC") (Some "14249"))
           [{| to_handler := h_ads_cmd;
               delivered := {| effective_user := {| id := 7 |};
                               message := None;
                               callback_query := callback_query edited_ads |};
               with_context := DEFAULT_TYPE;
               in_world := serving_world |}]
           h_ads_cmd sample_update DEFAULT_TYPE serving_world eq_refl).
  - repeat constructor. discriminate.
  - exact Hreq.
  - exact I.
  - discriminate.
Defined.
